(** * NeuralNetwork: the vectorised engine of [InterestingBits.ipynb]

    A shallow embedding of the code cells (and the inline code of the
    markdown cells) of [src/InterestingBits.ipynb]: the numpy operations
    they call, the Python values they handle, the network object they
    mutate, and the properties of the specification stated over them. *)

From stdpp Require Import gmap strings list.
From Stdlib Require Import QArith Floats.

#[local] Set Warnings "-register-all".
#[local] Open Scope nat_scope.

(** ** Python exceptions and outcomes *)

(** The exception classes the cells raise, catch or let through. *)
Inductive exception : Type :=
  | FileNotFoundError
  | OSError
  | JSONDecodeError
  | MemoryError
  | KeyError (key : string)
  | TypeError
  | ValueError
  | AxisError
  | IndexError
  | AttributeError (name : string)
  | ZeroDivisionError.

(** The outcome of evaluating an expression: a value or a raised exception. *)
Inductive result (X : Type) : Type :=
  | Ok (x : X)
  | Err (e : exception).
Arguments Ok {X} x.
Arguments Err {X} e.

Definition rbind {X Y} (r : result X) (k : X → result Y) : result Y :=
  match r with
  | Ok x => k x
  | Err e => Err e
  end.

(** The expression returned a value. *)
Definition returned {X} (r : result X) : Prop :=
  match r with
  | Ok _ => True
  | Err _ => False
  end.

#[export] Instance result_ret : MRet result := λ X, Ok.
#[export] Instance result_bind : MBind result := λ X Y k r, rbind r k.

(** A comprehension [[f x for x in l]]: elements are evaluated left to
    right and the first exception aborts the whole list. *)
Fixpoint comprehension {X Y} (f : X → result Y) (l : list X) : result (list Y) :=
  match l with
  | [] => Ok []
  | x :: l' => rbind (f x) (λ y, rbind (comprehension f l') (λ ys, Ok (y :: ys)))
  end.

(** ** Scalars

    The entries of the arrays are machine floats; the development is
    parametric in them: any carrier with the arithmetic the cells use. *)
Class Scalar (A : Type) := {
  szero : A;
  sadd : A → A → A;
  ssub : A → A → A;
  smul : A → A → A;
  sdiv : A → A → A;
  sis_zero : A → bool;
  sof_int : Z → A }.

(** Python's [x / y] on numbers: division by zero raises. *)
Definition truediv `{Scalar A} (x y : A) : result A :=
  if sis_zero y then Err ZeroDivisionError else Ok (sdiv x y).

(** Exact rational arithmetic, the carrier of the worked examples. *)
#[export] Instance Q_scalar : Scalar Q := {
  szero := 0%Q;
  sadd := Qplus;
  ssub := Qminus;
  smul := Qmult;
  sdiv := Qdiv;
  sis_zero := λ x, Qeq_bool x 0%Q;
  sof_int := inject_Z }.

(** ** numpy arrays *)

Module np.
Section ndarray.
Context {A : Type} `{Scalar A}.

(** An array is its shape and its row-major buffer. *)
Record ndarray : Type := mk { shape : list nat; data : list A }.

(** Number of entries of an array of shape [s]. *)
Definition size (s : list nat) : nat := fold_right Nat.mul 1 s.

Definition wf (a : ndarray) : Prop := length (data a) = size (shape a).

(** All multi-indices of shape [s], in row-major order. *)
Fixpoint indices (s : list nat) : list (list nat) :=
  match s with
  | [] => [[]]
  | d :: s' => flat_map (λ i, map (cons i) (indices s')) (seq 0 d)
  end.

(** Position of a multi-index in the row-major buffer. *)
Fixpoint offset (s idx : list nat) : nat :=
  match s, idx with
  | _ :: s', i :: idx' => i * size s' + offset s' idx'
  | _, _ => 0
  end.

Definition inbounds (s idx : list nat) : Prop := Forall2 lt idx s.

(** [a[idx]] *)
Definition item (a : ndarray) (idx : list nat) : A :=
  nth (offset (shape a) idx) (data a) szero.

Definition sum_list (l : list A) : A := fold_left sadd l szero.

(** Elementwise application of a vectorised function. *)
Definition vectorize (f : A → A) (a : ndarray) : ndarray :=
  mk (shape a) (map f (data a)).

(** [c * a] for a Python number [c]. *)
Definition scale (c : A) (a : ndarray) : ndarray :=
  mk (shape a) (map (smul c) (data a)).

(** *** Broadcasting *)

(** Shapes are aligned on their last axis; [bdims] works on the
    reversed shapes. Two extents are compatible when they are equal or
    one of them is 1. *)
Fixpoint bdims (r1 r2 : list nat) : option (list nat) :=
  match r1, r2 with
  | [], r | r, [] => Some r
  | d1 :: r1', d2 :: r2' =>
      if d1 =? d2 then cons d1 <$> bdims r1' r2'
      else if d1 =? 1 then cons d2 <$> bdims r1' r2'
      else if d2 =? 1 then cons d1 <$> bdims r1' r2'
      else None
  end.

Definition broadcast_shape (s1 s2 : list nat) : option (list nat) :=
  @rev nat <$> bdims (rev s1) (rev s2).

(** The index an operand of shape [s] is read at, for the index [idx]
    of the broadcast result: leading axes are dropped, and an axis of
    extent 1 is read at 0. *)
Definition bindex (s idx : list nat) : list nat :=
  zip_with (λ d i, if d =? 1 then 0 else i) s (drop (length idx - length s) idx).

Definition binop (f : A → A → A) (a b : ndarray) : result ndarray :=
  match broadcast_shape (shape a) (shape b) with
  | Some rs =>
      Ok (mk rs (map (λ idx, f (item a (bindex (shape a) idx))
                               (item b (bindex (shape b) idx)))
                     (indices rs)))
  | None => Err ValueError
  end.

(** [a + b], [a - b], [a * b] on arrays. *)
Definition add := binop sadd.
Definition subtract := binop ssub.
Definition multiply := binop smul.

(** *** [a.T]: the axes reversed *)
Definition T (a : ndarray) : ndarray :=
  let rs := rev (shape a) in
  mk rs (map (λ idx, item a (rev idx)) (indices rs)).

(** *** [np.sum(a, axis=1)] *)
Definition sum_axis1 (a : ndarray) : result ndarray :=
  match shape a with
  | d0 :: d1 :: s' =>
      let rs := d0 :: s' in
      Ok (mk rs (map (λ idx,
                   match idx with
                   | i0 :: rest => sum_list (map (λ j, item a (i0 :: j :: rest)) (seq 0 d1))
                   | [] => szero
                   end) (indices rs)))
  | _ => Err AxisError
  end.

(** *** [a.reshape(s)]: the same buffer under a shape of the same size *)
Definition reshape (a : ndarray) (s : list nat) : result ndarray :=
  if size (shape a) =? size s then Ok (mk s (data a)) else Err ValueError.

(** *** [np.dot(a, b)]

    A 0-d operand multiplies; a 1-d [b] is contracted with the last
    axis of [a]; otherwise the last axis of [a] is contracted with the
    second-to-last axis of [b]. *)
Definition dot (a b : ndarray) : result ndarray :=
  match shape a, shape b with
  | [], _ => Ok (mk (shape b) (map (smul (item a [])) (data b)))
  | _, [] => Ok (mk (shape a) (map (λ x, smul x (item b [])) (data a)))
  | sa, [m'] =>
      let m := List.last sa 0 in
      if m =? m' then
        let rs := removelast sa in
        Ok (mk rs (map (λ idx,
                     sum_list (map (λ j, smul (item a (idx ++ [j])) (item b [j]))
                                   (seq 0 m)))
                       (indices rs)))
      else Err ValueError
  | sa, sb =>
      let m := List.last sa 0 in
      let sb' := removelast sb in
      if m =? List.last sb' 0 then
        let ra := removelast sa in
        let rb := removelast sb' in
        let rs := ra ++ rb ++ [List.last sb 0] in
        Ok (mk rs (map (λ idx,
                     let ia := take (length ra) idx in
                     let rest := drop (length ra) idx in
                     let jb := take (length rb) rest in
                     let k := drop (length rb) rest in
                     sum_list (map (λ j, smul (item a (ia ++ [j])) (item b (jb ++ j :: k)))
                                   (seq 0 m)))
                       (indices rs)))
      else Err ValueError
  end.

(** *** Attribute lookup

    The methods of an array that take a shape. Any other name is not
    an attribute of [ndarray]. *)
Definition method (name : string) : option (ndarray → list nat → result ndarray) :=
  if String.eqb name "reshape" then Some reshape else None.

Definition call_method (a : ndarray) (name : string) (arg : list nat) : result ndarray :=
  match method name with
  | Some f => f a arg
  | None => Err (AttributeError name)
  end.
End ndarray.
Arguments ndarray A : clear implicits.
End np.

(** ** Python values

    What [json.load] returns and what the constructor receives: [None],
    booleans, numbers, strings, lists and dictionaries. *)
Inductive pyval (A : Type) : Type :=
  | PyNone
  | PyBool (b : bool)
  | PyInt (z : Z)
  | PyFloat (x : A)
  | PyStr (s : string)
  | PyList (l : list (pyval A))
  | PyDict (m : gmap string (pyval A)).
Arguments PyNone {A}.
Arguments PyBool {A} b.
Arguments PyInt {A} z.
Arguments PyFloat {A} x.
Arguments PyStr {A} s.
Arguments PyList {A} l.
Arguments PyDict {A} m.

Section python.
Context {A : Type} `{Scalar A}.

(** [v[key]] for a string key: only a dictionary can be indexed by a
    string, and a missing key raises [KeyError]. *)
Definition getitem (v : pyval A) (key : string) : result (pyval A) :=
  match v with
  | PyDict m =>
      match m !! key with
      | Some x => Ok x
      | None => Err (KeyError key)
      end
  | _ => Err TypeError
  end.

(** [for x in v]: lists yield their elements, strings their
    characters, dictionaries their keys (in the order the map lists
    them); nothing else is iterable. *)
Definition iter (v : pyval A) : result (list (pyval A)) :=
  match v with
  | PyList l => Ok l
  | PyStr s => Ok (map (λ c, PyStr (String c EmptyString)) (String.list_ascii_of_string s))
  | PyDict m => Ok (map (λ kv, PyStr (fst kv)) (map_to_list m))
  | _ => Err TypeError
  end.

(** [x is not None] *)
Definition is_not_None (v : pyval A) : bool :=
  match v with
  | PyNone => false
  | _ => true
  end.

(** The truth value [if v:] tests. *)
Definition truthy (v : pyval A) : bool :=
  match v with
  | PyNone => false
  | PyBool b => b
  | PyInt z => negb (z =? 0)%Z
  | PyFloat x => negb (sis_zero x)
  | PyStr s => negb (String.eqb s EmptyString)
  | PyList l => negb (length l =? 0)
  | PyDict m => negb (size m =? 0)
  end.

(** [np.array] on numbers and on nested lists of equal-shaped rows,
    the documents the worked examples use. *)
Fixpoint array_of_nested (v : pyval A) : result (np.ndarray A) :=
  match v with
  | PyInt z => Ok (np.mk [] [sof_int z])
  | PyFloat x => Ok (np.mk [] [x])
  | PyList l =>
      rbind ((fix rows (l : list (pyval A)) : result (list (np.ndarray A)) :=
                match l with
                | [] => Ok []
                | x :: l' =>
                    rbind (array_of_nested x) (λ y, rbind (rows l') (λ ys, Ok (y :: ys)))
                end) l)
            (λ subs,
               match subs with
               | [] => Ok (np.mk [0] [])
               | a :: _ =>
                   if forallb (λ b, bool_decide (np.shape b = np.shape a)) subs
                   then Ok (np.mk (length subs :: np.shape a) (concat (map np.data subs)))
                   else Err ValueError
               end)
  | _ => Err ValueError
  end.
End python.

(** ** The world outside the cells

    [open] followed by [json.load], and [np.array] with its allocation:
    both belong to the interpreter and its libraries and may fail for
    reasons of their own. *)
Class Host (A : Type) := {
  json_load : string → result (pyval A);
  np_array : pyval A → result (np.ndarray A) }.

(** What [print] writes: the class's message constants and the line
    [load] prints for a missing key. *)
Inductive message : Type :=
  | WRONGSHAPE_MESSAGE
  | FILENOTFOUNDERROR_MESSAGE
  | MEMORYERROR_MESSAGE
  | LoadFailedMissingKey (key : string).

(** ** The network object *)

Module NeuralNetwork.
Section object.
Context {A : Type}.

(** The attributes of [self]; an attribute that was never assigned is
    [None]. *)
Record t : Type := mk {
  shape : option (pyval A);
  weights : option (list (np.ndarray A));
  biases : option (list (np.ndarray A));
  activation : option (A → A);
  outputs : option (list (np.ndarray A));
  activations : option (list (np.ndarray A));
  deltas : option (list (np.ndarray A));
  data : option (np.ndarray A);
  target : option (np.ndarray A);
  test_data : option (np.ndarray A);
  test_labels : option (np.ndarray A);
  testing_error : option (list A) }.

(** The object before any assignment. *)
Definition fresh : t :=
  mk None None None None None None None None None None None None.

Definition with_shape (v : pyval A) (n : t) : t :=
  mk (Some v) (weights n) (biases n) (activation n) (outputs n) (activations n)
     (deltas n) (data n) (target n) (test_data n) (test_labels n) (testing_error n).
Definition with_weights (v : list (np.ndarray A)) (n : t) : t :=
  mk (shape n) (Some v) (biases n) (activation n) (outputs n) (activations n)
     (deltas n) (data n) (target n) (test_data n) (test_labels n) (testing_error n).
Definition with_biases (v : list (np.ndarray A)) (n : t) : t :=
  mk (shape n) (weights n) (Some v) (activation n) (outputs n) (activations n)
     (deltas n) (data n) (target n) (test_data n) (test_labels n) (testing_error n).
Definition with_activation (v : A → A) (n : t) : t :=
  mk (shape n) (weights n) (biases n) (Some v) (outputs n) (activations n)
     (deltas n) (data n) (target n) (test_data n) (test_labels n) (testing_error n).
Definition with_outputs (v : list (np.ndarray A)) (n : t) : t :=
  mk (shape n) (weights n) (biases n) (activation n) (Some v) (activations n)
     (deltas n) (data n) (target n) (test_data n) (test_labels n) (testing_error n).
Definition with_activations (v : list (np.ndarray A)) (n : t) : t :=
  mk (shape n) (weights n) (biases n) (activation n) (outputs n) (Some v)
     (deltas n) (data n) (target n) (test_data n) (test_labels n) (testing_error n).
Definition with_data (v : np.ndarray A) (n : t) : t :=
  mk (shape n) (weights n) (biases n) (activation n) (outputs n) (activations n)
     (deltas n) (Some v) (target n) (test_data n) (test_labels n) (testing_error n).
Definition with_target (v : np.ndarray A) (n : t) : t :=
  mk (shape n) (weights n) (biases n) (activation n) (outputs n) (activations n)
     (deltas n) (data n) (Some v) (test_data n) (test_labels n) (testing_error n).
Definition with_test_data (v : np.ndarray A) (n : t) : t :=
  mk (shape n) (weights n) (biases n) (activation n) (outputs n) (activations n)
     (deltas n) (data n) (target n) (Some v) (test_labels n) (testing_error n).
Definition with_test_labels (v : np.ndarray A) (n : t) : t :=
  mk (shape n) (weights n) (biases n) (activation n) (outputs n) (activations n)
     (deltas n) (data n) (target n) (test_data n) (Some v) (testing_error n).
Definition with_testing_error (v : list A) (n : t) : t :=
  mk (shape n) (weights n) (biases n) (activation n) (outputs n) (activations n)
     (deltas n) (data n) (target n) (test_data n) (test_labels n) (Some v).

(** The object together with what has been printed so far. *)
Record state : Type := mk_state { self : t; stdout : list message }.

(** A method body: it may change [self], print, and raise. Whatever it
    changed before raising stays changed. *)
Definition M (X : Type) : Type := state → result X * state.

Definition ret {X} (x : X) : M X := λ st, (Ok x, st).
Definition raise {X} (e : exception) : M X := λ st, (Err e, st).
Definition bind {X Y} (c : M X) (k : X → M Y) : M Y :=
  λ st, match c st with
        | (Ok x, st') => k x st'
        | (Err e, st') => (Err e, st')
        end.
Definition lift {X} (r : result X) : M X := λ st, (r, st).
Definition print (m : message) : M unit :=
  λ st, (Ok tt, mk_state (self st) (stdout st ++ [m])).
Definition assign (f : t → t) : M unit :=
  λ st, (Ok tt, mk_state (f (self st)) (stdout st)).

(** [self.name], raising [AttributeError] when it was never assigned. *)
Definition attr {X} (name : string) (field : t → option X) : M X :=
  λ st, match field (self st) with
        | Some x => (Ok x, st)
        | None => (Err (AttributeError name), st)
        end.

(** [try: body except ...]: [handler] returns the clause that matches
    the exception, if any. *)
(** What a pass leaves of the object when it has appended [outs] and
    [acts] to the two histories: everything else is as it was. *)
Definition extended (outs acts : list (np.ndarray A)) (n : t) : t :=
  mk (shape n) (weights n) (biases n) (activation n)
     ((λ l, l ++ outs) <$> outputs n) ((λ l, l ++ acts) <$> activations n)
     (deltas n) (data n) (target n) (test_data n) (test_labels n) (testing_error n).

Definition try_except {X} (body : M X) (handler : exception → option (M X)) : M X :=
  λ st, match body st with
        | (Err e, st') =>
            match handler e with
            | Some h => h st'
            | None => (Err e, st')
            end
        | r => r
        end.
End object.
Arguments t A : clear implicits.
Arguments state A : clear implicits.
Arguments M A X : clear implicits.

#[export] Instance M_ret {A} : MRet (M A) := λ X, ret.
#[export] Instance M_bind {A} : MBind (M A) := λ X Y k c, bind c k.

(** The allocating helpers of the constructor; their bodies are not
    among the cells. Each may change [self] and may raise. *)
Class Allocators (A : Type) := {
  _init_weights : M A unit;
  _init_biases : M A unit;
  _init_activations : M A unit;
  _init_outputs : M A unit;
  _init_dropouts : M A unit }.

Section methods.
Context {A : Type} `{Scalar A} `{Host A} `{Allocators A}.

(** *** Training and test data (lines 41-44 and 62-65) *)

Definition store_training_data (train_data train_labels : pyval A) : M A unit :=
  train_data ← lift (np_array train_data);
  train_labels ← lift (np_array train_labels);
  assign (with_data (np.T train_data));;
  assign (with_target (np.T train_labels)).

Definition store_test_data (test_data test_labels : pyval A) : M A unit :=
  if is_not_None test_data && is_not_None test_labels then
    d ← lift (np_array test_data);
    assign (with_test_data (np.T d));;
    l ← lift (np_array test_labels);
    assign (with_test_labels (np.T l));;
    assign (with_testing_error [])
  else mret tt.

(** *** The feed-forward loop (lines 83-87) *)

(** [self.outputs.append(r)] and [self.activations.append(r)] *)
Definition append_outputs (r : np.ndarray A) : M A unit :=
  l ← attr "outputs" outputs; assign (with_outputs (l ++ [r])).
Definition append_activations (r : np.ndarray A) : M A unit :=
  l ← attr "activations" activations; assign (with_activations (l ++ [r])).

(** [np.dot(w, result) + b], for the current [result] [z]. *)
Definition affine (w b z : np.ndarray A) : result (np.ndarray A) :=
  p ← np.dot w z; np.add p b.

(** One turn of the loop body, from the current [result] to the next. *)
Definition feed_forward_step (w b result : np.ndarray A) : M A (np.ndarray A) :=
  result ← lift (affine w b result);
  append_outputs result;;
  f ← attr "activation" activation;
  let result := np.vectorize f result in
  append_activations result;;
  mret result.

Fixpoint feed_forward_loop (wbs : list (np.ndarray A * np.ndarray A))
    (result : np.ndarray A) : M A (np.ndarray A) :=
  match wbs with
  | [] => mret result
  | (w, b) :: wbs' =>
      result ← feed_forward_step w b result;
      feed_forward_loop wbs' result
  end.

(** [for w, b in zip(self.weights, self.biases): ...], started from
    [result]; the value is [result] after the last turn. *)
Definition feed_forward (result : np.ndarray A) : M A (np.ndarray A) :=
  ws ← attr "weights" weights;
  bs ← attr "biases" biases;
  feed_forward_loop (zip ws bs) result.

(** *** Updating the biases (lines 175-176) *)

(** The element of the comprehension for one pair [(b, d)], with the
    name of the method called on the column sum. *)
Definition bias_element (meth : string) (learning_rate total : A)
    (bd : np.ndarray A * np.ndarray A) : result (np.ndarray A) :=
  let '(b, d) := bd in
  c ← truediv learning_rate total;
  s ← np.sum_axis1 d;
  r ← np.call_method s meth (np.shape b);
  np.subtract b (np.scale c r).

Definition update_biases_calling (meth : string) (learning_rate total : A) : M A unit :=
  bs ← attr "biases" biases;
  ds ← attr "deltas" deltas;
  new ← lift (comprehension (bias_element meth learning_rate total) (zip bs ds));
  assign (with_biases new).

(** The cell as it is written. *)
Definition update_biases : A → A → M A unit := update_biases_calling "resape".

(** *** Updating the weights (lines 207-208) *)

Definition weight_element (eta total : A)
    (wda : np.ndarray A * (np.ndarray A * np.ndarray A)) : result (np.ndarray A) :=
  let '(w, (d, a)) := wda in
  c ← truediv eta total;
  p ← np.dot d (np.T a);
  np.subtract w (np.scale c p).

(** [w'] is [w - c * np.dot(d, a.T)], of the shape of [w]. *)
Definition weight_updated (c : A) (w d a w' : np.ndarray A) : Prop :=
  ∃ p, np.dot d (np.T a) = Ok p ∧ np.subtract w (np.scale c p) = Ok w' ∧
       np.shape w' = np.shape w.

Definition update_weights (eta total : A) : M A unit :=
  ws ← attr "weights" weights;
  ds ← attr "deltas" deltas;
  acts ← attr "activations" activations;
  new ← lift (comprehension (weight_element eta total) (zip ws (zip ds acts)));
  assign (with_weights new).

(** *** [load] (lines 285-294) *)

(** [[np.array(w) for w in data[key]]] *)
Definition arrays_of (data : pyval A) (key : string) : result (list (np.ndarray A)) :=
  l ← getitem data key; l ← iter l; comprehension np_array l.

Definition load (file_location : string) : M A unit :=
  data ← lift (json_load file_location);
  try_except
    (shape ← lift (getitem data "shape");
     assign (with_shape shape);;
     ws ← lift (arrays_of data "weights");
     assign (with_weights ws);;
     bs ← lift (arrays_of data "biases");
     assign (with_biases bs))
    (λ e, match e with
          | KeyError key => Some (print (LoadFailedMissingKey key);; raise e)
          | _ => None
          end).

(** What [load] has printed when the exception [e] leaves its [try]. *)
Definition reported (e : exception) : list message :=
  match e with
  | KeyError key => [LoadFailedMissingKey key]
  | _ => []
  end.

(** *** The constructor's dispatch on [shape_or_file] (lines 259-267 and 312-328)

    The two branches the notebook shows; an argument that is neither a
    string nor a list falls through them. *)

Definition init (shape_or_file : pyval A) (activation : A → A) (dropout : pyval A) : M A unit :=
  match shape_or_file with
  | PyStr file =>
      try_except (load file)
        (λ e, match e with
              | FileNotFoundError => Some (print FILENOTFOUNDERROR_MESSAGE;; raise e)
              | MemoryError => Some (print MEMORYERROR_MESSAGE;; raise e)
              | _ => None
              end)
  | PyList l =>
      if length l <? 2 then
        print WRONGSHAPE_MESSAGE;; raise ValueError
      else
        try_except
          (assign (with_shape shape_or_file);;
           assign (with_activation activation);;
           _init_weights;;
           _init_biases;;
           _init_activations;;
           _init_outputs;;
           if truthy dropout then _init_dropouts else mret tt)
          (λ e, match e with
                | MemoryError => Some (print MEMORYERROR_MESSAGE;; raise e)
                | _ => None
                end)
  | _ => mret tt
  end.
End methods.
End NeuralNetwork.

(** ** Back propagation *)

Module BackpropEngine.
Section backward.
Context {A : Type} `{Scalar A}.
Variable activationDerivative : A → A.

(** Modelled from the spec: the dropout clause of [backward] (section
    4.4), whose code is not among the cells. A mask that was applied
    to a layer's activation is multiplied into that layer's delta. *)
Definition apply_mask (mask : option (np.ndarray A)) (delta : np.ndarray A)
    : result (np.ndarray A) :=
  match mask with
  | Some m => np.multiply delta m
  | None => Ok delta
  end.

(** Modelled from the spec: the delta of the output layer in
    [backward] (section 4.4), whose code is not among the cells:
    (activations[L-1] - target) ⊙ activationDerivative(outputs[L-1]). *)
Definition output_delta (activation output target : np.ndarray A)
    : result (np.ndarray A) :=
  e ← np.subtract activation target;
  np.multiply e (np.vectorize activationDerivative output).

(** Modelled from the spec: the delta of a hidden layer in [backward]
    (section 4.4), whose code is not among the cells:
    (weight[l+1]ᵀ · delta[l+1]) ⊙ activationDerivative(outputs[l]),
    then the layer's dropout mask. *)
Definition hidden_delta (next_weight next_delta output : np.ndarray A)
    (mask : option (np.ndarray A)) : result (np.ndarray A) :=
  p ← np.dot (np.T next_weight) next_delta;
  d ← np.multiply p (np.vectorize activationDerivative output);
  apply_mask mask d.

(** Modelled from the spec: the loop of [backward] (section 4.4),
    whose code is not among the cells. The lists hold one entry per
    non-input layer, from the current layer to the last; the deltas
    are built from the last layer down. *)
Fixpoint deltas_from (weights outputs : list (np.ndarray A))
    (masks : list (option (np.ndarray A)))
    (last_activation target : np.ndarray A) : result (list (np.ndarray A)) :=
  match outputs with
  | [] => Ok []
  | o :: outputs' =>
      match outputs' with
      | [] => d ← output_delta last_activation o target; Ok [d]
      | _ :: _ =>
          rest ← deltas_from (tail weights) outputs' (tail masks) last_activation target;
          match tail weights, rest with
          | w :: _, dn :: _ =>
              d ← hidden_delta w dn o (mjoin (head masks));
              Ok (d :: rest)
          | _, _ => Err IndexError
          end
      end
  end.

(** Modelled from the spec: [backward(store, outputs, activations,
    masks, target)] (section 4.4), whose code is not among the cells.
    [weights], [outputs] and [masks] hold layers 1 to L-1,
    [activations] holds layers 0 to L-1; the result holds delta[1] to
    delta[L-1]. *)
Definition backward (weights outputs activations : list (np.ndarray A))
    (masks : list (option (np.ndarray A))) (target : np.ndarray A)
    : result (list (np.ndarray A)) :=
  match last activations with
  | Some a => deltas_from weights outputs masks a target
  | None => Err IndexError
  end.
End backward.
End BackpropEngine.

(** ** The sigmoid (the inline code of line 226)

    [1 / (1 + np.exp(-x))] on an array of doubles. The arithmetic is
    IEEE 754 binary64, as numpy's is: the negation, the addition and
    the division are the primitive operations on [float]. [np.exp]
    belongs to numpy and the C library under it; the development is
    parametric in it. *)

Class Libm := { np_exp : float → float }.

Module Sigmoid.
Section sigmoid.
Context `{Libm}.

(** The formula on one entry. *)
Definition sigmoid (x : float) : float := (1 / (1 + np_exp (- x)))%float.

(** The four arrays the expression builds, innermost first: [-x],
    [np.exp(-x)], [1 + np.exp(-x)] and the quotient. *)
Definition negated (x : np.ndarray float) : np.ndarray float :=
  np.vectorize PrimFloat.opp x.
Definition exponential (x : np.ndarray float) : np.ndarray float :=
  np.vectorize np_exp (negated x).
Definition denominator (x : np.ndarray float) : np.ndarray float :=
  np.vectorize (PrimFloat.add 1) (exponential x).
Definition sigmoid_array (x : np.ndarray float) : np.ndarray float :=
  np.vectorize (PrimFloat.div 1) (denominator x).

(** An operation overflows when it takes a finite operand to an
    infinity. *)
Definition overflowed (operand result : float) : bool :=
  is_finite operand && is_infinity result.

(** No entry of [b], computed from the entry of [a] at the same place,
    is an overflow. *)
Definition step_without_overflow (a b : np.ndarray float) : Prop :=
  Forall2 (λ u w, overflowed u w = false) (np.data a) (np.data b).

(** None of the three steps that compute on the entries overflows. *)
Definition no_overflow (x : np.ndarray float) : Prop :=
  step_without_overflow (negated x) (exponential x) ∧
  step_without_overflow (exponential x) (denominator x) ∧
  step_without_overflow (denominator x) (sigmoid_array x).
End sigmoid.
End Sigmoid.

(** *** A reference exponential

    An exponential on doubles to run the examples with, after fdlibm's
    [e_exp.c]: reduction of the argument by a multiple of ln 2, a
    rational approximation on the remainder, scaling by the power of
    two, with fdlibm's constants and its overflow and underflow
    thresholds; its tests on the high word of the argument are written
    as comparisons of doubles. The exponential numpy runs may differ
    from it in the last bit of a finite result; above the overflow
    threshold both return inf. *)

Module fdlibm.
#[local] Set Warnings "-inexact-float".
#[local] Open Scope float_scope.

Definition o_threshold : float := 7.09782712893383973096e+02.
Definition u_threshold : float := -7.45133219101941108420e+02.
Definition ln2HI : float := 6.93147180369123816490e-01.
Definition ln2LO : float := 1.90821492927058770002e-10.
Definition invln2 : float := 1.44269504088896338700e+00.
Definition P1 : float := 1.66666666666666019037e-01.
Definition P2 : float := -2.77777777770155933842e-03.
Definition P3 : float := 6.61375632143793436117e-05.
Definition P4 : float := -1.65339022054652515390e-06.
Definition P5 : float := 4.13813679705723846039e-08.
Definition huge : float := 1.0e+300.
Definition twom1000 : float := 9.33263618503218878990e-302.

(** The C cast [(int) f] of a finite double: its integer part. *)
Definition truncate (f : float) : Z :=
  match Prim2SF f with
  | S754_finite s m e =>
      let n := Z.shiftl (Zpos m) e in
      if s then (- n)%Z else n
  | _ => 0%Z
  end.

(** The double of a small integer. *)
Definition of_int (k : Z) : float :=
  if (k <? 0)%Z then - of_uint63 (Uint63.of_Z (- k)) else of_uint63 (Uint63.of_Z k).

Definition exp (x : float) : float :=
  if is_nan x then x + x
  else if x =? infinity then x
  else if x =? neg_infinity then 0
  else if o_threshold <? x then huge * huge
  else if x <? u_threshold then twom1000 * twom1000
  else
    let negative := x <? 0 in
    let '(hi, lo, k) :=
      if 0.34657359027997264 <? abs x then
        if abs x <? 1.0397207708399179 then
          if negative then (x + ln2HI, - ln2LO, (-1)%Z) else (x - ln2HI, ln2LO, 1%Z)
        else
          let k := truncate (invln2 * x + (if negative then -0.5 else 0.5)) in
          (x - of_int k * ln2HI, of_int k * ln2LO, k)
      else (x, 0, 0%Z) in
    if abs x <? Z.ldexp 1 (-28) then 1 + x else
    let r := hi - lo in
    let t := r * r in
    let c := r - t * (P1 + t * (P2 + t * (P3 + t * (P4 + t * P5)))) in
    if (k =? 0)%Z then 1 - ((r * c) / (c - 2) - r)
    else
      let y := 1 - ((lo - (r * c) / (2 - c)) - hi) in
      if (-1021 <=? k)%Z then Z.ldexp y k
      else Z.ldexp y (k + 1000) * twom1000.

#[export] Instance libm : Libm := {| np_exp := exp |}.
End fdlibm.

(** ** The shapes of the data model (section 3 of the specification) *)

Section data_model.
Context {A : Type}.

(** Shape: at least two layers, every extent positive. *)
Definition valid_shape (sh : list nat) : Prop :=
  2 ≤ length sh ∧ Forall (lt 0) sh.

(** weight[l] has dimensions (shape[l], shape[l-1]), one per non-input layer. *)
Definition weights_match (sh : list nat) (ws : list (np.ndarray A)) : Prop :=
  Forall2 (λ w mn, np.shape w = [mn.2; mn.1]) ws (zip sh (tail sh)).

(** bias[l] has dimensions (shape[l], 1). *)
Definition biases_match (sh : list nat) (bs : list (np.ndarray A)) : Prop :=
  Forall2 (λ b n, np.shape b = [n; 1]) bs (tail sh).

(** One array of dimensions (n, k) per extent n of [dims]. *)
Definition columns_match (k : nat) (dims : list nat) (l : list (np.ndarray A)) : Prop :=
  Forall2 (λ a n, np.shape a = [n; k]) l dims.
End data_model.

(** ** Worked examples

    A network of shape [2, 1] on a batch of two examples, over the
    rationals, and three model files. *)

Module Example.
Import NeuralNetwork.

Definition W1 : np.ndarray Q := np.mk [1; 2] [1; 2]%Q.
Definition b1 : np.ndarray Q := np.mk [1; 1] [1]%Q.
Definition batch : np.ndarray Q := np.mk [2; 2] [1; 2; 3; 4]%Q.
Definition delta1 : np.ndarray Q := np.mk [1; 2] [2; 4]%Q.
Definition activation1 : np.ndarray Q := np.mk [1; 2] [8; 11]%Q.

(** The object after construction from [2, 1] and one forward and
    backward pass over [batch]. *)
Definition trained : t Q :=
  mk (Some (PyList [PyInt 2; PyInt 1])) (Some [W1]) (Some [b1]) (Some (λ x, x))
     (Some [activation1]) (Some [batch; activation1]) (Some [delta1])
     None None None None None.

(** The object after construction, before any pass. *)
Definition constructed : t Q :=
  mk (Some (PyList [PyInt 2; PyInt 1])) (Some [W1]) (Some [b1]) (Some (λ x, x))
     (Some []) (Some []) None None None None None None.

Definition matrix (rows : list (list Z)) : pyval Q :=
  PyList (map (λ r, PyList (map PyInt r)) rows).

(** A document without its weights and biases. *)
Definition partial_document : pyval Q :=
  PyDict {[ "shape" := PyList [PyInt 3; PyInt 1] ]}.

(** A document whose only weight matrix is 1 x 3 under the shape [2, 1]. *)
Definition mismatched_document : pyval Q :=
  PyDict (<["shape" := PyList [PyInt 2; PyInt 1]]>
          (<["weights" := PyList [matrix [[1; 2; 3]]]]>
           {[ "biases" := PyList [matrix [[0]]] ]}))%Z.

(** A document with no weight and no bias under the shape [2, 1]. *)
Definition empty_document : pyval Q :=
  PyDict (<["shape" := PyList [PyInt 2; PyInt 1]]>
          (<["weights" := PyList []]> {[ "biases" := PyList [] ]})).

Definition files (path : string) : result (pyval Q) :=
  if String.eqb path "partial.json" then Ok partial_document
  else if String.eqb path "mismatched.json" then Ok mismatched_document
  else if String.eqb path "empty.json" then Ok empty_document
  else Err FileNotFoundError.

#[export] Instance host : Host Q := {| json_load := files; np_array := array_of_nested |}.

(** Allocators that store empty lists. *)
#[export] Instance allocators : Allocators Q := {|
  _init_weights := assign (with_weights []);
  _init_biases := assign (with_biases []);
  _init_activations := assign (with_activations []);
  _init_outputs := assign (with_outputs []);
  _init_dropouts := ret () |}.

(** Two training examples of three features, one per row, and their labels. *)
Definition train_data : pyval Q := matrix [[1; 2; 3]; [4; 5; 6]]%Z.
Definition train_labels : pyval Q := matrix [[0]; [1]]%Z.

(** A network of shape [1, 1, 1] on one example, for the backward pass. *)
Definition V1 : np.ndarray Q := np.mk [1; 1] [2]%Q.
Definition V2 : np.ndarray Q := np.mk [1; 1] [3]%Q.
Definition out1 : np.ndarray Q := np.mk [1; 1] [2]%Q.
Definition out2 : np.ndarray Q := np.mk [1; 1] [6]%Q.
Definition act0 : np.ndarray Q := np.mk [1; 1] [1]%Q.
Definition goal : np.ndarray Q := np.mk [1; 1] [5]%Q.

(** Entries for the sigmoid: a mild one and a large negative one. *)
Definition steep : np.ndarray float := np.mk [1; 1] [-1025]%float.
Definition mixed : np.ndarray float := np.mk [2] [0; -1025]%float.
End Example.


(** ** More worked examples

    Inputs on which the cells raise or drop entries. *)

Module MoreExamples.
Import NeuralNetwork.

(** The trained network with a second weight that has no delta. *)
Definition overfull : t Q := with_weights [Example.W1; Example.W1] Example.trained.

(** The constructed network with an empty list of deltas. *)
Definition idle : t Q :=
  mk (Some (PyList [PyInt 2; PyInt 1])) (Some [Example.W1]) (Some [Example.b1])
     (Some (λ x, x)) (Some []) (Some []) (Some []) None None None None None.

(** The network before its first pass over [Example.batch], the batch
    already in the activation history and the delta of the pass given. *)
Definition ready : t Q :=
  mk (Some (PyList [PyInt 2; PyInt 1])) (Some [Example.W1]) (Some [Example.b1])
     (Some (λ x, x)) (Some []) (Some [Example.batch]) (Some [Example.delta1])
     None None None None None.

(** One further example of two features. *)
Definition single : np.ndarray Q := np.mk [2; 1] [1; 1]%Q.

(** A batch of three features, for a network of two inputs. *)
Definition wide : np.ndarray Q := np.mk [3; 2] [1; 2; 3; 4; 5; 6]%Q.

(** The weight of [Example.trained] after the weight cell with eta = 1
    and a batch size of 2. *)
Definition W1_updated : np.ndarray Q := np.mk [1; 2] [-8 # 2; -18 # 2]%Q.

(** Rows of different lengths: not an array. *)
Definition ragged : pyval Q := PyList [PyList [PyInt 0]; PyList []].

(** A host whose every file holds the empty JSON list. *)
Definition list_host : Host Q :=
  {| json_load := λ _, Ok (PyList []); np_array := array_of_nested |}.

(** Allocators that run out of memory on the weights. *)
Definition exhausted : Allocators Q := {|
  _init_weights := raise MemoryError;
  _init_biases := ret ();
  _init_activations := ret ();
  _init_outputs := ret ();
  _init_dropouts := ret () |}.
End MoreExamples.

(** * Properties *)

(** ** numpy: indices and items *)

Section np_facts.
Context {A : Type} `{Scalar A}.
Implicit Types (a b : np.ndarray A) (s idx : list nat).

Lemma length_flat_map_uniform {X} (f : nat → list X) m start d :
  (∀ i, length (f i) = m) → length (flat_map f (seq start d)) = d * m.
Proof.
  intros Hf. revert start. induction d as [|d IH]; intros start; simpl; [done|].
  rewrite length_app, Hf, IH. done.
Qed.

Lemma length_indices s : length (np.indices s) = np.size s.
Proof.
  induction s as [|d s IH]; simpl; [done|].
  apply length_flat_map_uniform. intros i. by rewrite length_map.
Qed.

Lemma nth_flat_map_uniform {X} (f : nat → list X) m start d i j dflt :
  (∀ i, length (f i) = m) → i < d → j < m →
  nth (i * m + j) (flat_map f (seq start d)) dflt = nth j (f (start + i)) dflt.
Proof.
  intros Hf. revert start i. induction d as [|d IH]; intros start i Hi Hj; [lia|].
  simpl. destruct i as [|i].
  - rewrite app_nth1 by (rewrite Hf; lia). by rewrite Nat.add_0_r.
  - rewrite app_nth2 by (rewrite Hf; lia). rewrite Hf.
    replace (S i * m + j - m) with (i * m + j) by lia.
    rewrite IH by lia. f_equal. f_equal. lia.
Qed.

Lemma offset_lt s idx : np.inbounds s idx → np.offset s idx < np.size s.
Proof.
  intros Hb. induction Hb as [|i d idx s Hi Hb IH]; simpl; [lia|]. nia.
Qed.

Lemma nth_indices s idx dflt :
  np.inbounds s idx → nth (np.offset s idx) (np.indices s) dflt = idx.
Proof.
  intros Hb. revert dflt. induction Hb as [|i d idx s Hi Hb IH]; intros dflt; simpl; [done|].
  rewrite (nth_flat_map_uniform _ (np.size s)); try done.
  - simpl. rewrite (nth_indep _ dflt (i :: idx)).
    + change (i :: idx) with (cons i idx) at 2. rewrite map_nth. by rewrite IH.
    + rewrite length_map, length_indices. by apply offset_lt.
  - intros. by rewrite length_map, length_indices.
  - by apply offset_lt.
Qed.

(** An array built over the indices of its shape holds, at every
    index, the entry it was built from. *)
Lemma item_tabulate s (g : list nat → A) idx :
  np.inbounds s idx → np.item (np.mk s (map g (np.indices s))) idx = g idx.
Proof.
  intros Hb. unfold np.item. simpl.
  rewrite (nth_indep _ _ (g idx)) by (rewrite length_map, length_indices; by apply offset_lt).
  rewrite map_nth. by rewrite nth_indices.
Qed.

Lemma wf_tabulate s (g : list nat → A) : np.wf (np.mk s (map g (np.indices s))).
Proof. unfold np.wf. simpl. by rewrite length_map, length_indices. Qed.

(** *** Transposition *)

Lemma shape_T a : np.shape (np.T a) = rev (np.shape a).
Proof. done. Qed.

Lemma item_T a idx :
  np.inbounds (rev (np.shape a)) idx → np.item (np.T a) idx = np.item a (rev idx).
Proof. intros Hb. unfold np.T. by rewrite item_tabulate. Qed.

Lemma wf_T a : np.wf (np.T a).
Proof. apply wf_tabulate. Qed.

(** *** Elementwise operations *)

Lemma bdims_diag r : np.bdims r r = Some r.
Proof. induction r as [|d r IH]; simpl; [done|]. by rewrite Nat.eqb_refl, IH. Qed.

Lemma broadcast_shape_diag s : np.broadcast_shape s s = Some s.
Proof. unfold np.broadcast_shape. rewrite bdims_diag. simpl. by rewrite rev_involutive. Qed.

Lemma broadcast_shape_column n k : np.broadcast_shape [n; k] [n; 1] = Some [n; k].
Proof.
  unfold np.broadcast_shape. simpl.
  destruct (k =? 1) eqn:E.
  - apply Nat.eqb_eq in E. subst. simpl. by rewrite Nat.eqb_refl.
  - simpl. by rewrite Nat.eqb_refl.
Qed.

Lemma binop_same_shape f a b s :
  np.shape a = s → np.shape b = s →
  ∃ c, np.binop f a b = Ok c ∧ np.shape c = s ∧ np.wf c.
Proof.
  intros Ha Hb. unfold np.binop. rewrite Ha, Hb, broadcast_shape_diag.
  eexists. split; [done|]. split; [done|]. apply wf_tabulate.
Qed.

Lemma binop_column f a b n k :
  np.shape a = [n; k] → np.shape b = [n; 1] →
  ∃ c, np.binop f a b = Ok c ∧ np.shape c = [n; k] ∧ np.wf c.
Proof.
  intros Ha Hb. unfold np.binop. rewrite Ha, Hb, broadcast_shape_column.
  eexists. split; [done|]. split; [done|]. apply wf_tabulate.
Qed.

Lemma shape_vectorize f a : np.shape (np.vectorize f a) = np.shape a.
Proof. done. Qed.

Lemma wf_vectorize f a : np.wf a → np.wf (np.vectorize f a).
Proof. unfold np.wf. simpl. by rewrite length_map. Qed.

Lemma shape_scale c a : np.shape (np.scale c a) = np.shape a.
Proof. done. Qed.

(** *** The matrix product *)

Lemma dot_matrices a b n m k :
  np.shape a = [n; m] → np.shape b = [m; k] →
  ∃ c, np.dot a b = Ok c ∧ np.shape c = [n; k] ∧ np.wf c.
Proof.
  intros Ha Hb. unfold np.dot. rewrite Ha, Hb. simpl. rewrite Nat.eqb_refl.
  eexists. split; [done|]. split; [done|]. apply wf_tabulate.
Qed.

(** Entry (i, j) of a matrix product is row i of [a] against column j
    of [b]. *)
Lemma item_dot_matrices a b c n m k i j :
  np.shape a = [n; m] → np.shape b = [m; k] → np.dot a b = Ok c →
  i < n → j < k →
  np.item c [i; j] =
    np.sum_list (map (λ l, smul (np.item a [i; l]) (np.item b [l; j])) (seq 0 m)).
Proof.
  intros Ha Hb Hc Hi Hj. unfold np.dot in Hc. rewrite Ha, Hb in Hc. simpl in Hc.
  rewrite Nat.eqb_refl in Hc. injection Hc as <-.
  rewrite item_tabulate; [done|]. repeat constructor; done.
Qed.

(** Entry (j, i) of the transpose of a matrix is its entry (i, j). *)
Lemma item_T_matrix a n m i j :
  np.shape a = [n; m] → i < n → j < m → np.item (np.T a) [j; i] = np.item a [i; j].
Proof.
  intros Ha Hi Hj. rewrite item_T; [done|]. rewrite Ha. repeat constructor; done.
Qed.

(** *** Reduction along the batch axis and reshaping *)

Lemma sum_axis1_matrix a n k :
  np.shape a = [n; k] →
  ∃ c, np.sum_axis1 a = Ok c ∧ np.shape c = [n] ∧ np.wf c ∧
       ∀ i, i < n → np.item c [i] = np.sum_list (map (λ j, np.item a [i; j]) (seq 0 k)).
Proof.
  intros Ha. unfold np.sum_axis1. rewrite Ha. eexists. split; [done|].
  split; [done|]. split; [apply wf_tabulate|].
  intros i Hi. rewrite item_tabulate; [done|]. repeat constructor; done.
Qed.

Lemma reshape_ok a s :
  np.size (np.shape a) = np.size s →
  np.reshape a s = Ok (np.mk s (np.data a)).
Proof. intros E. unfold np.reshape. rewrite E. by rewrite Nat.eqb_refl. Qed.

Lemma reshape_shape a s c : np.reshape a s = Ok c → np.shape c = s.
Proof. unfold np.reshape. case_match; [|done]. by intros [= <-]. Qed.

Lemma reshape_mismatch a s :
  np.size (np.shape a) ≠ np.size s → np.reshape a s = Err ValueError.
Proof. intros E. unfold np.reshape. apply Nat.eqb_neq in E. by rewrite E. Qed.

Lemma call_method_unknown a name arg :
  name ≠ "reshape" → np.call_method a name arg = Err (AttributeError name).
Proof.
  intros Hn. unfold np.call_method, np.method.
  apply String.eqb_neq in Hn. by rewrite Hn.
Qed.
End np_facts.

(** ** Running method bodies *)

Section run_facts.
Context {A : Type}.
Import NeuralNetwork.

Lemma run_bind {X Y} (c : M A X) (k : X → M A Y) st :
  (c ≫= k) st =
    match c st with
    | (Ok x, st') => k x st'
    | (Err e, st') => (Err e, st')
    end.
Proof. done. Qed.

Lemma run_bind_ok {X Y} (c : M A X) (k : X → M A Y) st x st' :
  c st = (Ok x, st') → (c ≫= k) st = k x st'.
Proof. intros E. by rewrite run_bind, E. Qed.

Lemma run_bind_err {X Y} (c : M A X) (k : X → M A Y) st e st' :
  c st = (Err e, st') → (c ≫= k) st = (Err e, st').
Proof. intros E. by rewrite run_bind, E. Qed.

Lemma run_attr {X} name (field : t A → option X) st x :
  field (self st) = Some x → attr name field st = (Ok x, st).
Proof. intros E. unfold attr. by rewrite E. Qed.

Lemma run_attr_unset {X} name (field : t A → option X) st :
  field (self st) = None → attr name field st = (Err (AttributeError name), st).
Proof. intros E. unfold attr. by rewrite E. Qed.

Lemma extended_nil (n : t A) : extended [] [] n = n.
Proof.
  destruct n as [? ? ? ? o a ? ? ? ? ? ?]. unfold extended. simpl.
  destruct o, a; simpl; by rewrite ?app_nil_r.
Qed.

Lemma extended_extended outs acts outs' acts' (n : t A) :
  extended outs' acts' (extended outs acts n) = extended (outs ++ outs') (acts ++ acts') n.
Proof.
  destruct n as [? ? ? ? o a ? ? ? ? ? ?]. unfold extended. simpl.
  destruct o, a; simpl; by rewrite <- ?app_assoc.
Qed.

Lemma comprehension_Forall2 {X Y} (f : X → result Y) l ys :
  comprehension f l = Ok ys ↔ Forall2 (λ x y, f x = Ok y) l ys.
Proof.
  revert ys. induction l as [|x l IH]; intros ys; simpl.
  - split; [by intros [= <-]; constructor|]. by intros ->%Forall2_nil_inv_l.
  - split.
    + destruct (f x) as [y|e] eqn:E; simpl; [|done].
      destruct (comprehension f l) as [ys'|e] eqn:E'; simpl; [|done].
      intros [= <-]. constructor; [done|]. by apply IH.
    + intros (y & ys' & Hy & Hys & ->)%Forall2_cons_inv_l.
      rewrite Hy. simpl. apply IH in Hys. by rewrite Hys.
Qed.

Lemma comprehension_cons_ok {X Y} (f : X → result Y) x l y ys :
  f x = Ok y → comprehension f l = Ok ys → comprehension f (x :: l) = Ok (y :: ys).
Proof. intros E E'. simpl. by rewrite E, E'. Qed.

Lemma comprehension_head_err {X Y} (f : X → result Y) x l e :
  f x = Err e → comprehension f (x :: l) = Err e.
Proof. intros E. simpl. by rewrite E. Qed.
End run_facts.

(** ** The feed-forward loop *)

Section forward_facts.
Context {A : Type} `{Scalar A}.
Import NeuralNetwork.
Implicit Types (st : state A) (x w b : np.ndarray A).

(** The affine map of one layer on a batch. *)
Lemma affine_matrices w b x n m k :
  np.shape w = [n; m] → np.shape b = [n; 1] → np.shape x = [m; k] →
  ∃ o, affine w b x = Ok o ∧ np.shape o = [n; k] ∧ np.wf o.
Proof.
  intros Hw Hb Hx. unfold affine.
  destruct (dot_matrices w x n m k Hw Hx) as (p & Hp & Hsp & _).
  destruct (binop_column sadd p b n k Hsp Hb) as (o & Ho & Hso & Hwf).
  exists o. rewrite Hp. split; [exact Ho|]. split; assumption.
Qed.

(** One turn of the loop, whatever its outcome, only appends. *)
Lemma feed_forward_step_frame w b x st :
  ∃ outs acts,
    (feed_forward_step w b x st).2 = mk_state (extended outs acts (self st)) (stdout st) ∧
    (returned (feed_forward_step w b x st).1 → length outs = 1 ∧ length acts = 1).
Proof.
  destruct st as [n out]. unfold feed_forward_step.
  rewrite run_bind. unfold lift at 1.
  destruct (affine w b x) as [o|e]; simpl.
  2:{ exists [], []. by rewrite extended_nil. }
  rewrite run_bind. unfold append_outputs. rewrite run_bind.
  destruct n as [s ws bs f os ac ? ? ? ? ? ?]; unfold attr; simpl.
  destruct os as [os|]; simpl.
  2:{ exists [], []. by rewrite extended_nil. }
  rewrite run_bind. simpl.
  destruct f as [f|]; simpl.
  2:{ exists [o], []. unfold extended. simpl. destruct ac; simpl; by rewrite ?app_nil_r. }
  rewrite run_bind. unfold append_activations. rewrite run_bind. simpl.
  destruct ac as [ac|]; simpl.
  2:{ exists [o], []. unfold extended. simpl. by rewrite ?app_nil_r. }
  exists [o], [np.vectorize f o]. done.
Qed.

Lemma feed_forward_loop_frame wbs x st :
  ∃ outs acts,
    (feed_forward_loop wbs x st).2 = mk_state (extended outs acts (self st)) (stdout st) ∧
    (returned (feed_forward_loop wbs x st).1 →
     length outs = length wbs ∧ length acts = length wbs).
Proof.
  revert x st. induction wbs as [|[w b] wbs IH]; intros x st.
  - exists [], []. rewrite extended_nil. by destruct st.
  - simpl. rewrite run_bind.
    destruct (feed_forward_step_frame w b x st) as (o1 & a1 & E1 & L1).
    destruct (feed_forward_step w b x st) as [[r|e] st1] eqn:Es; simpl in *.
    + destruct (IH r st1) as (o2 & a2 & E2 & L2).
      exists (o1 ++ o2), (a1 ++ a2). rewrite E2, E1. simpl.
      rewrite extended_extended. split; [done|].
      intros Hs. rewrite <- E1 in Hs. destruct (L1 I), (L2 Hs). rewrite !length_app. lia.
    + exists o1, a1. done.
Qed.

(** One turn on matching dimensions. *)
Lemma feed_forward_step_ok w b x n m k st f outs0 acts0 :
  np.shape w = [n; m] → np.shape b = [n; 1] → np.shape x = [m; k] →
  activation (self st) = Some f →
  outputs (self st) = Some outs0 → activations (self st) = Some acts0 →
  ∃ o, affine w b x = Ok o ∧ np.shape o = [n; k] ∧ np.wf o ∧
       feed_forward_step w b x st =
         (Ok (np.vectorize f o),
          mk_state (extended [o] [np.vectorize f o] (self st)) (stdout st)).
Proof.
  intros Hw Hb Hx Hf Ho Ha.
  destruct (affine_matrices w b x n m k Hw Hb Hx) as (o & Eo & Hso & Hwf).
  exists o. split; [done|]. split; [done|]. split; [done|].
  destruct st as [nn out]. unfold feed_forward_step.
  rewrite run_bind. unfold lift at 1. rewrite Eo.
  rewrite run_bind. unfold append_outputs. rewrite run_bind.
  rewrite (run_attr _ _ _ outs0) by done. unfold assign at 1. simpl.
  rewrite run_bind. rewrite (run_attr _ _ _ f) by done.
  rewrite run_bind. unfold append_activations. rewrite run_bind.
  rewrite (run_attr _ _ _ acts0) by done. unfold assign. simpl.
  unfold extended. simpl in *. rewrite Ho, Ha. done.
Qed.

Lemma feed_forward_loop_ok sh : ∀ n0 k ws bs x st f outs0 acts0,
  weights_match (n0 :: sh) ws → biases_match (n0 :: sh) bs →
  np.shape x = [n0; k] →
  activation (self st) = Some f →
  outputs (self st) = Some outs0 → activations (self st) = Some acts0 →
  ∃ r outs acts,
    feed_forward_loop (zip ws bs) x st =
      (Ok r, mk_state (extended outs acts (self st)) (stdout st)) ∧
    np.shape r = [List.last (n0 :: sh) 0; k] ∧
    columns_match k sh outs ∧ columns_match k sh acts ∧
    last (x :: acts) = Some r ∧
    Forall np.wf outs ∧ Forall np.wf acts.
Proof.
  induction sh as [|n1 sh IH]; intros n0 k ws bs x st f outs0 acts0 Hws Hbs Hx Hf Ho Ha.
  - unfold weights_match, biases_match in *. simpl in *.
    apply Forall2_nil_inv_r in Hws, Hbs. subst.
    exists x, [], []. simpl. rewrite extended_nil. destruct st.
    repeat split; try done; constructor.
  - unfold weights_match, biases_match in *. simpl in *.
    apply Forall2_cons_inv_r in Hws as (w & ws' & Hw & Hws' & ->).
    apply Forall2_cons_inv_r in Hbs as (b & bs' & Hb & Hbs' & ->).
    simpl in Hw.
    destruct (feed_forward_step_ok w b x n1 n0 k st f outs0 acts0)
      as (o & Eo & Hso & Hwf & Es); try done.
    set (st1 := mk_state (extended [o] [np.vectorize f o] (self st)) (stdout st)).
    destruct (IH n1 k ws' bs' (np.vectorize f o) st1 f (outs0 ++ [o])
                (acts0 ++ [np.vectorize f o]))
      as (r & outs & acts & El & Hr & Hco & Hca & Hl & Hwo & Hwa);
      try done.
    { subst st1. simpl. by rewrite Ho. }
    { subst st1. simpl. by rewrite Ha. }
    exists r, (o :: outs), (np.vectorize f o :: acts).
    split.
    { simpl. rewrite run_bind. rewrite Es. fold st1. rewrite El.
      subst st1. simpl. by rewrite extended_extended. }
    split; [by destruct sh|].
    split; [by constructor|].
    split; [by constructor|].
    split; [done|].
    split; constructor; try done. by apply wf_vectorize.
Qed.
End forward_facts.

(** ** The update step *)

Section update_facts.
Context {A : Type} `{Scalar A}.
Import NeuralNetwork.
Implicit Types (st : state A) (b d w a : np.ndarray A).

Lemma truediv_ok (x y : A) : sis_zero y = false → truediv x y = Ok (sdiv x y).
Proof. intros E. unfold truediv. by rewrite E. Qed.

(** The element of the bias comprehension never yields a value under
    the name the cell calls. *)
Lemma bias_element_resape_fails learning_rate total b d :
  ¬ returned (bias_element "resape" learning_rate total (b, d)).
Proof.
  unfold bias_element.
  destruct (truediv learning_rate total) as [c|]; simpl; [|tauto].
  destruct (np.sum_axis1 d) as [s|]; simpl; tauto.
Qed.

Lemma bias_element_resape learning_rate total b d n k :
  sis_zero total = false → np.shape d = [n; k] →
  bias_element "resape" learning_rate total (b, d) = Err (AttributeError "resape").
Proof.
  intros Ht Hd. unfold bias_element. rewrite truediv_ok by done. simpl.
  destruct (sum_axis1_matrix d n k Hd) as (s & -> & _). done.
Qed.

(** Under the name the markdown of line 185 gives, the element is the
    bias minus the scaled column sum, reshaped to the bias's shape. *)
Lemma bias_element_reshape learning_rate total b d n k :
  sis_zero total = false → np.shape b = [n; 1] → np.shape d = [n; k] →
  ∃ s r b',
    np.sum_axis1 d = Ok s ∧ np.shape s = [n] ∧
    np.reshape s (np.shape b) = Ok r ∧ np.shape r = np.shape b ∧
    np.subtract b (np.scale (sdiv learning_rate total) r) = Ok b' ∧
    np.shape b' = np.shape b ∧
    bias_element "reshape" learning_rate total (b, d) = Ok b'.
Proof.
  intros Ht Hb Hd.
  destruct (sum_axis1_matrix d n k Hd) as (s & Es & Hs & _).
  assert (Er : np.reshape s (np.shape b) = Ok (np.mk (np.shape b) (np.data s))).
  { apply reshape_ok. rewrite Hs, Hb. simpl. lia. }
  set (r := np.mk (np.shape b) (np.data s)) in *.
  destruct (binop_same_shape ssub b (np.scale (sdiv learning_rate total) r) (np.shape b))
    as (b' & Eb' & Hb' & _); [done|done|].
  exists s, r, b'. repeat (split; [done|]).
  unfold bias_element. rewrite truediv_ok by done. simpl. rewrite Es. simpl.
  unfold np.call_method. simpl. rewrite Er. simpl. exact Eb'.
Qed.

(** When the column sum does not have as many entries as the bias,
    the reshape raises. *)
Lemma bias_element_reshape_mismatch learning_rate total b d n k :
  sis_zero total = false → np.shape d = [n; k] → np.size (np.shape b) ≠ n →
  bias_element "reshape" learning_rate total (b, d) = Err ValueError.
Proof.
  intros Ht Hd Hb.
  destruct (sum_axis1_matrix d n k Hd) as (s & Es & Hs & _).
  unfold bias_element. rewrite truediv_ok by done. simpl. rewrite Es. simpl.
  unfold np.call_method. simpl. rewrite reshape_mismatch; [done|].
  rewrite Hs. simpl. lia.
Qed.

(** The bias cell raises as soon as there is a pair to update, and
    leaves the object as it was. *)
Lemma update_biases_raises learning_rate total st bs ds :
  biases (self st) = Some bs → deltas (self st) = Some ds →
  zip bs ds ≠ [] →
  ∃ e, update_biases learning_rate total st = (Err e, st).
Proof.
  intros Hb Hd Hz. unfold update_biases, update_biases_calling.
  rewrite run_bind, (run_attr _ _ _ bs) by done.
  rewrite run_bind, (run_attr _ _ _ ds) by done.
  rewrite run_bind. unfold lift.
  destruct (zip bs ds) as [|[b d] l]; [done|].
  pose proof (bias_element_resape_fails learning_rate total b d) as Hf.
  destruct (bias_element "resape" learning_rate total (b, d)) as [?|e] eqn:E;
    simpl in Hf; [tauto|].
  rewrite (comprehension_head_err _ _ _ _ E). by exists e.
Qed.

Lemma update_biases_attribute_error learning_rate total st b bs d ds n k :
  biases (self st) = Some (b :: bs) → deltas (self st) = Some (d :: ds) →
  sis_zero total = false → np.shape d = [n; k] →
  update_biases learning_rate total st = (Err (AttributeError "resape"), st).
Proof.
  intros Hb Hd Ht Hs. unfold update_biases, update_biases_calling.
  rewrite run_bind, (run_attr _ _ _ (b :: bs)) by done.
  rewrite run_bind, (run_attr _ _ _ (d :: ds)) by done.
  rewrite run_bind. unfold lift.
  change (zip (b :: bs) (d :: ds)) with ((b, d) :: zip bs ds).
  by rewrite (comprehension_head_err _ _ _ _ (bias_element_resape _ _ b d n k Ht Hs)).
Qed.

(** *** Weights *)

Lemma weight_element_matrices eta total w d a n m k :
  sis_zero total = false →
  np.shape w = [n; m] → np.shape d = [n; k] → np.shape a = [m; k] →
  ∃ w', weight_element eta total (w, (d, a)) = Ok w' ∧
        weight_updated (sdiv eta total) w d a w'.
Proof.
  intros Ht Hw Hd Ha.
  destruct (dot_matrices d (np.T a) n k m) as (p & Ep & Hp & _); [done| |].
  { by rewrite shape_T, Ha. }
  destruct (binop_same_shape ssub w (np.scale (sdiv eta total) p) [n; m])
    as (w' & Ew' & Hw' & _); [done|done|].
  exists w'. split.
  - unfold weight_element. rewrite truediv_ok by done. simpl. rewrite Ep. simpl. exact Ew'.
  - exists p. split; [done|]. split; [done|]. by rewrite Hw.
Qed.

Lemma weight_comprehension_ok eta total k sh : ∀ n0 ws ds acts,
  sis_zero total = false →
  weights_match (n0 :: sh) ws → columns_match k sh ds →
  columns_match k (n0 :: sh) acts →
  ∃ ws', comprehension (weight_element eta total) (zip ws (zip ds acts)) = Ok ws' ∧
         weights_match (n0 :: sh) ws' ∧
         Forall2 (λ wda w', weight_updated (sdiv eta total) wda.1 wda.2.1 wda.2.2 w')
                 (zip ws (zip ds acts)) ws' ∧
         length (zip ws (zip ds acts)) = length ws.
Proof.
  induction sh as [|n1 sh IH]; intros n0 ws ds acts Ht Hws Hds Hacts.
  - unfold weights_match, columns_match in *. simpl in *.
    apply Forall2_nil_inv_r in Hws, Hds. subst. exists []. simpl.
    repeat split; constructor.
  - unfold weights_match, columns_match in *. simpl in *.
    apply Forall2_cons_inv_r in Hws as (w & ws1 & Hw & Hws1 & ->).
    apply Forall2_cons_inv_r in Hds as (d & ds1 & Hd & Hds1 & ->).
    apply Forall2_cons_inv_r in Hacts as (a & acts1 & Ha & Hacts1 & ->).
    simpl in Hw.
    destruct (weight_element_matrices eta total w d a n1 n0 k) as (w' & Ew & Hu); try done.
    destruct (IH n1 ws1 ds1 acts1) as (ws' & Ec & Hm & Hall & Hlen); try done.
    exists (w' :: ws').
    change (zip (w :: ws1) (zip (d :: ds1) (a :: acts1)))
      with ((w, (d, a)) :: zip ws1 (zip ds1 acts1)).
    split; [by apply comprehension_cons_ok|]. split.
    { constructor; [|done]. simpl. destruct Hu as (p & _ & _ & ->). done. }
    split; [by constructor|]. simpl. by rewrite Hlen.
Qed.
End update_facts.

(** ** Loading, constructing, storing the data *)

Section lifecycle_facts.
Import NeuralNetwork.
Context {A : Type} `{Scalar A} `{Host A} `{Allocators A}.
Implicit Types (st : state A) (doc : pyval A).

(** [load], step by step: each assignment is made as soon as its
    right-hand side has been computed. *)
Lemma load_run path st :
  load path st =
    match json_load path with
    | Err e => (Err e, st)
    | Ok doc =>
        match getitem doc "shape" with
        | Err e => (Err e, mk_state (self st) (stdout st ++ reported e))
        | Ok s =>
            match arrays_of doc "weights" with
            | Err e => (Err e, mk_state (with_shape s (self st)) (stdout st ++ reported e))
            | Ok ws =>
                match arrays_of doc "biases" with
                | Err e =>
                    (Err e, mk_state (with_weights ws (with_shape s (self st)))
                                     (stdout st ++ reported e))
                | Ok bs =>
                    (Ok (), mk_state (with_biases bs (with_weights ws (with_shape s (self st))))
                                     (stdout st))
                end
            end
        end
    end.
Proof.
  destruct st as [n out]. unfold load. rewrite run_bind. unfold lift at 1.
  destruct (json_load path) as [doc|e]; [|done].
  unfold try_except. rewrite run_bind. unfold lift at 1.
  destruct (getitem doc "shape") as [s|e].
  2:{ destruct e; simpl; by rewrite ?app_nil_r. }
  rewrite run_bind. unfold assign at 1. rewrite run_bind. unfold lift at 1.
  destruct (arrays_of doc "weights") as [ws|e].
  2:{ destruct e; simpl; by rewrite ?app_nil_r. }
  rewrite run_bind. unfold assign at 1. rewrite run_bind. unfold lift at 1.
  destruct (arrays_of doc "biases") as [bs|e].
  2:{ destruct e; simpl; by rewrite ?app_nil_r. }
  done.
Qed.

Lemma getitem_missing (m : gmap string (pyval A)) key :
  m !! key = None → getitem (PyDict m) key = Err (KeyError key).
Proof. intros E. simpl. by rewrite E. Qed.

Lemma arrays_of_missing (m : gmap string (pyval A)) key :
  m !! key = None → arrays_of (PyDict m) key = Err (KeyError key).
Proof. intros E. unfold arrays_of. by rewrite getitem_missing. Qed.

Lemma store_training_data_run train_data train_labels st a b :
  np_array train_data = Ok a → np_array train_labels = Ok b →
  store_training_data train_data train_labels st =
    (Ok (), mk_state (with_target (np.T b) (with_data (np.T a) (self st))) (stdout st)).
Proof.
  intros Ea Eb. unfold store_training_data.
  rewrite run_bind. unfold lift at 1. rewrite Ea.
  rewrite run_bind. unfold lift at 1. rewrite Eb. done.
Qed.

Lemma store_test_data_run test_data test_labels st c d :
  is_not_None test_data = true → is_not_None test_labels = true →
  np_array test_data = Ok c → np_array test_labels = Ok d →
  store_test_data test_data test_labels st =
    (Ok (), mk_state (with_testing_error []
                        (with_test_labels (np.T d) (with_test_data (np.T c) (self st))))
                     (stdout st)).
Proof.
  intros Nd Nl Ec Ed. unfold store_test_data. rewrite Nd, Nl. simpl.
  rewrite run_bind. unfold lift at 1. rewrite Ec.
  rewrite run_bind. unfold assign at 1.
  rewrite run_bind. unfold lift at 1. rewrite Ed. done.
Qed.

Lemma store_test_data_absent test_data test_labels st :
  is_not_None test_data && is_not_None test_labels = false →
  store_test_data test_data test_labels st = (Ok (), st).
Proof. intros E. unfold store_test_data. by rewrite E. Qed.
End lifecycle_facts.

(** ** Back propagation *)

Section backward_facts.
Context {A : Type} `{Scalar A}.
Variable dact : A → A.
Import BackpropEngine.
Implicit Types (w o d a : np.ndarray A).

Lemma output_delta_matrices a o target n k :
  np.shape a = [n; k] → np.shape o = [n; k] → np.shape target = [n; k] →
  ∃ e d, np.subtract a target = Ok e ∧
         np.multiply e (np.vectorize dact o) = Ok d ∧
         output_delta dact a o target = Ok d ∧ np.shape d = [n; k].
Proof.
  intros Ha Ho Ht.
  destruct (binop_same_shape ssub a target [n; k]) as (e & Ee & He & _); [done|done|].
  destruct (binop_same_shape smul e (np.vectorize dact o) [n; k])
    as (d & Ed & Hd & _); [done|done|].
  exists e, d. split; [done|]. split; [done|]. split; [|done].
  unfold output_delta, np.subtract. rewrite Ee. exact Ed.
Qed.

Lemma hidden_delta_matrices wn dn o n1 n2 k :
  np.shape wn = [n2; n1] → np.shape dn = [n2; k] → np.shape o = [n1; k] →
  ∃ p d, np.dot (np.T wn) dn = Ok p ∧
         np.multiply p (np.vectorize dact o) = Ok d ∧
         hidden_delta dact wn dn o None = Ok d ∧ np.shape d = [n1; k].
Proof.
  intros Hw Hd Ho.
  destruct (dot_matrices (np.T wn) dn n1 n2 k) as (p & Ep & Hp & _); [|done|].
  { by rewrite shape_T, Hw. }
  destruct (binop_same_shape smul p (np.vectorize dact o) [n1; k])
    as (d & Ed & Hds & _); [done|done|].
  exists p, d. split; [done|]. split; [done|]. split; [|done].
  unfold hidden_delta, np.multiply. rewrite Ep. simpl. rewrite Ed. done.
Qed.

(** The deltas of the layers of extents [sh], below a layer of extent
    [n0]: every delta is that of the output layer or is computed from
    the next layer's weight and delta. *)
Lemma deltas_from_ok k sh : ∀ n0 ws outs masks a_last target,
  weights_match (n0 :: sh) ws → columns_match k sh outs →
  Forall (λ m, m = None) masks →
  np.shape a_last = [List.last (n0 :: sh) 0; k] →
  np.shape target = [List.last (n0 :: sh) 0; k] →
  ∃ ds, deltas_from dact ws outs masks a_last target = Ok ds ∧
        columns_match k sh ds ∧
        ∀ i o d, outs !! i = Some o → ds !! i = Some d →
          (S i = length outs ∧
           ∃ e, np.subtract a_last target = Ok e ∧
                np.multiply e (np.vectorize dact o) = Ok d) ∨
          (∃ wn dn p, ws !! S i = Some wn ∧ ds !! S i = Some dn ∧
                      np.dot (np.T wn) dn = Ok p ∧
                      np.multiply p (np.vectorize dact o) = Ok d).
Proof.
  induction sh as [|n1 sh IH]; intros n0 ws outs masks a_last target Hws Houts Hm Ha Ht.
  - unfold columns_match in *. apply Forall2_nil_inv_r in Houts as ->.
    exists []. split; [done|]. split; [constructor|]. intros i o d Ho. done.
  - unfold weights_match, columns_match in *. simpl in Hws.
    apply Forall2_cons_inv_r in Hws as (w & ws' & Hw & Hws' & ->).
    apply Forall2_cons_inv_r in Houts as (o & outs' & Ho & Houts' & ->).
    destruct sh as [|n2 sh].
    + apply Forall2_nil_inv_r in Houts' as ->. simpl in Ha, Ht.
      destruct (output_delta_matrices a_last o target n1 k) as (e & d & Ee & Ed & Eo & Hd);
        try done.
      exists [d]. split; [simpl; by rewrite Eo|]. split; [by repeat constructor|].
      intros [|i] o' d'; simpl; [|done]. intros [= <-] [= <-]. left. split; [done|]. eauto.
    + destruct (IH n1 ws' outs' (tail masks) a_last target) as (ds & Eds & Hds & Hspec);
        try done.
      { destruct Hm; [constructor|done]. }
      pose proof Houts' as Houts''.
      apply Forall2_cons_inv_r in Houts'' as (o2 & outs'' & Ho2 & _ & Eouts).
      pose proof Hds as Hds'.
      apply Forall2_cons_inv_r in Hds' as (dn & ds' & Hdn & _ & Eds').
      pose proof Hws' as Hws''. simpl in Hws''.
      apply Forall2_cons_inv_r in Hws'' as (w2 & ws'' & Hw2 & _ & Ews). simpl in Hw2.
      destruct (hidden_delta_matrices w2 dn o n1 n2 k) as (p & d & Ep & Ed & Eh & Hd);
        try done.
      assert (Hmask : mjoin (head masks) = None).
      { destruct Hm as [|m ms Hm0 _]; [done|]. simpl. by rewrite Hm0. }
      exists (d :: ds). split.
      { subst outs'. simpl. simpl in Eds. rewrite Eds. simpl.
        subst ws' ds. simpl. rewrite Hmask, Eh. done. }
      split; [by constructor|].
      intros [|i] o' d'; simpl.
      * intros [= <-] [= <-]. right. exists w2, dn, p. subst ws' ds. done.
      * intros Ho' Hd'. destruct (Hspec i o' d' Ho' Hd') as [[Hlen He]|Hr].
        -- left. split; [by rewrite <- Hlen|done].
        -- right. done.
Qed.
End backward_facts.

(** ** The sigmoid *)

Section sigmoid_facts.
Import Sigmoid.
Context `{Libm}.

Lemma sigmoid_array_data x : np.data (sigmoid_array x) = map sigmoid (np.data x).
Proof.
  unfold sigmoid_array, denominator, exponential, negated, np.vectorize. simpl.
  rewrite !map_map. done.
Qed.

Lemma sigmoid_array_shape x : np.shape (sigmoid_array x) = np.shape x.
Proof. done. Qed.

(** Where [np.exp] returns an infinity the quotient is zero. *)
Lemma sigmoid_through_infinity (v : float) :
  np_exp (- v)%float = infinity → sigmoid v = 0%float.
Proof. intros E. unfold sigmoid. rewrite E. reflexivity. Qed.

(** An entry at which [np.exp] overflows is an overflow of the
    second array. *)
Lemma exponential_overflows x i (v : float) :
  np.data x !! i = Some v → is_finite (- v)%float = true →
  np_exp (- v)%float = infinity →
  ¬ step_without_overflow (negated x) (exponential x).
Proof.
  intros Hi Hf He Hstep.
  unfold step_without_overflow, exponential, negated, np.vectorize in Hstep.
  simpl in Hstep.
  change (Forall2 (λ u w, overflowed u w = false)
            (PrimFloat.opp <$> np.data x) (np_exp <$> (PrimFloat.opp <$> np.data x)))
    in Hstep.
  assert (Hn : (PrimFloat.opp <$> np.data x) !! i = Some (- v)%float)
    by (by rewrite list_lookup_fmap, Hi).
  assert (Hx : (np_exp <$> (PrimFloat.opp <$> np.data x)) !! i = Some (np_exp (- v)%float))
    by (by rewrite list_lookup_fmap, Hn).
  pose proof (Forall2_lookup_lr _ _ _ _ _ _ Hstep Hn Hx) as Ho.
  unfold overflowed in Ho. rewrite Hf, He in Ho. discriminate Ho.
Qed.
End sigmoid_facts.

(** * The claims *)

Import (hints) Example.

Section forward_claims.
Import NeuralNetwork.
Context {A : Type} `{Scalar A}.

Lemma last_default {X} (l : list X) (x dflt : X) : last l = Some x → List.last l dflt = x.
Proof.
  induction l as [|y l IH]; [done|]. destruct l as [|z l]; [by intros [= ->]|].
  intros E. apply IH. exact E.
Qed.

(** C5: for every valid shape, every store whose weights and biases
    match it and every batch of dimensions (n0, k) with k ≥ 1, the
    feed-forward loop returns, its value (the final activation) has
    dimensions (n(L-1), k), and every output and activation it appends
    for layer l has dimensions (shape[l], k): the batch-column count is
    preserved through every layer. *)
Theorem forward_dimensions (sh : list nat) (k : nat) (ws bs outs0 acts0 : list (np.ndarray A))
    (f : A → A) (x : np.ndarray A) (st : state A) :
  valid_shape sh → 1 ≤ k →
  weights_match sh ws → biases_match sh bs →
  weights (self st) = Some ws → biases (self st) = Some bs →
  activation (self st) = Some f →
  outputs (self st) = Some outs0 → activations (self st) = Some acts0 →
  np.shape x = [List.hd 0 sh; k] →
  ∃ r outs acts,
    feed_forward x st = (Ok r, mk_state (extended outs acts (self st)) (stdout st)) ∧
    np.shape r = [List.last sh 0; k] ∧ np.wf r ∧
    last acts = Some r ∧
    columns_match k (tail sh) outs ∧ columns_match k (tail sh) acts.
Proof.
  intros [Hlen Hpos] Hk Hws Hbs Ew Eb Ef Eo Ea Hx.
  destruct sh as [|n0 sh]; [simpl in Hlen; lia|]. simpl in Hx, Hlen.
  destruct (feed_forward_loop_ok sh n0 k ws bs x st f outs0 acts0)
    as (r & outs & acts & El & Hr & Hco & Hca & Hl & Hwo & Hwa); try done.
  assert (Hlast : last acts = Some r).
  { destruct sh as [|n1 sh]; [simpl in Hlen; lia|].
    apply Forall2_cons_inv_r in Hca as (a & acts' & _ & _ & ->). exact Hl. }
  exists r, outs, acts.
  split.
  { unfold feed_forward. rewrite run_bind, (run_attr _ _ _ ws) by done.
    rewrite run_bind, (run_attr _ _ _ bs) by done. exact El. }
  split; [done|].
  split. { apply last_Some_elem_of in Hlast. rewrite Forall_forall in Hwa. by apply Hwa. }
  done.
Qed.

(** C7, as amended: whatever its outcome, a forward pass leaves the
    shape, the weights, the biases and every other attribute of the
    object as they were, except the object's own [outputs] and
    [activations] lists, to which it appends; when it returns, it has
    appended one output and one activation per layer. *)
Theorem forward_frame (x : np.ndarray A) (st : state A) :
  let st' := (feed_forward x st).2 in
  shape (self st') = shape (self st) ∧
  weights (self st') = weights (self st) ∧
  biases (self st') = biases (self st) ∧
  activation (self st') = activation (self st) ∧
  deltas (self st') = deltas (self st) ∧
  data (self st') = data (self st) ∧
  target (self st') = target (self st) ∧
  test_data (self st') = test_data (self st) ∧
  test_labels (self st') = test_labels (self st) ∧
  testing_error (self st') = testing_error (self st) ∧
  stdout st' = stdout st ∧
  ∃ outs acts,
    outputs (self st') = (λ l, l ++ outs) <$> outputs (self st) ∧
    activations (self st') = (λ l, l ++ acts) <$> activations (self st) ∧
    (returned (feed_forward x st).1 →
     ∃ ws bs, weights (self st) = Some ws ∧ biases (self st) = Some bs ∧
              length outs = length (zip ws bs) ∧ length acts = length (zip ws bs)).
Proof.
  assert (∃ outs acts,
    (feed_forward x st).2 = mk_state (extended outs acts (self st)) (stdout st) ∧
    (returned (feed_forward x st).1 →
     ∃ ws bs, weights (self st) = Some ws ∧ biases (self st) = Some bs ∧
              length outs = length (zip ws bs) ∧ length acts = length (zip ws bs)))
    as (outs & acts & E & Hret).
  { unfold feed_forward. rewrite run_bind.
    destruct (weights (self st)) as [ws|] eqn:Ew.
    2:{ rewrite run_attr_unset by done. exists [], []. rewrite extended_nil.
        split; [by destruct st|]. simpl. tauto. }
    rewrite (run_attr _ _ _ ws) by done. rewrite run_bind.
    destruct (biases (self st)) as [bs|] eqn:Eb.
    2:{ rewrite run_attr_unset by done. exists [], []. rewrite extended_nil.
        split; [by destruct st|]. simpl. tauto. }
    rewrite (run_attr _ _ _ bs) by done.
    destruct (feed_forward_loop_frame (zip ws bs) x st) as (outs & acts & E & Hlen).
    exists outs, acts. split; [done|]. intros Hr. exists ws, bs. by destruct (Hlen Hr). }
  simpl. rewrite E. simpl. repeat (split; [done|]). exists outs, acts. done.
Qed.
End forward_claims.

(** C5, on the network of shape [2, 1] and a batch of two examples. *)
Lemma forward_dimensions_witness :
  ∃ r outs acts,
    NeuralNetwork.feed_forward Example.batch (NeuralNetwork.mk_state Example.constructed []) =
      (Ok r, NeuralNetwork.mk_state (NeuralNetwork.extended outs acts Example.constructed) []) ∧
    np.shape r = [1; 2] ∧ np.wf r ∧ last acts = Some r ∧
    columns_match 2 [1] outs ∧ columns_match 2 [1] acts.
Proof.
  apply (forward_dimensions [2; 1] 2 [Example.W1] [Example.b1] [] [] (λ x, x)
           Example.batch (NeuralNetwork.mk_state Example.constructed [])).
  - split; [simpl; lia|]. repeat constructor.
  - lia.
  - repeat constructor.
  - repeat constructor.
  - reflexivity.
  - reflexivity.
  - reflexivity.
  - reflexivity.
  - reflexivity.
  - reflexivity.
Defined.

(** C7 as stated fails: on the network of shape [2, 1], the pass
    returns and the object is not what it was, its [outputs] list has
    grown. *)
Lemma forward_changes_the_object :
  returned (NeuralNetwork.feed_forward Example.batch
              (NeuralNetwork.mk_state Example.constructed [])).1 ∧
  NeuralNetwork.self (NeuralNetwork.feed_forward Example.batch
                        (NeuralNetwork.mk_state Example.constructed [])).2
    ≠ Example.constructed.
Proof.
  split; [exact I|]. intros E.
  apply (f_equal NeuralNetwork.outputs) in E. vm_compute in E. discriminate E.
Qed.

(** C7 as amended, on the same pass: one output and one activation
    were appended. *)
Lemma forward_frame_witness :
  ∃ outs acts,
    NeuralNetwork.outputs (NeuralNetwork.self (NeuralNetwork.feed_forward Example.batch
        (NeuralNetwork.mk_state Example.constructed [])).2) = Some ([] ++ outs) ∧
    NeuralNetwork.activations (NeuralNetwork.self (NeuralNetwork.feed_forward Example.batch
        (NeuralNetwork.mk_state Example.constructed [])).2) = Some ([] ++ acts) ∧
    length outs = 1 ∧ length acts = 1.
Proof.
  destruct (forward_frame Example.batch (NeuralNetwork.mk_state Example.constructed []))
    as (_ & _ & _ & _ & _ & _ & _ & _ & _ & _ & _ & outs & acts & Ho & Ha & Hlen).
  exists outs, acts. split; [exact Ho|]. split; [exact Ha|].
  destruct (Hlen I) as (ws & bs & Ew & Eb & Hl1 & Hl2).
  injection Ew as <-. injection Eb as <-. split; assumption.
Defined.

Section update_claims.
Import NeuralNetwork.
Context {A : Type} `{Scalar A}.

(** C4: for every layer l from 1 to L-1 the weight cell replaces
    weight[l] (entry l-1 of the list) with weight[l] minus
    (eta/total) times delta[l] · activations[l-1]ᵀ, the delta of the
    layer against the activation of the layer before it; each new
    weight has the shape of the old one, and the biases are what they
    were, after the weight cell and after the bias cell alike. *)
Theorem update_weights_layers (sh : list nat) (k : nat)
    (ws bs ds acts : list (np.ndarray A)) (eta total : A) (st : state A) :
  valid_shape sh →
  weights_match sh ws → biases_match sh bs →
  columns_match k (tail sh) ds → columns_match k sh acts →
  sis_zero total = false →
  weights (self st) = Some ws → biases (self st) = Some bs →
  deltas (self st) = Some ds → activations (self st) = Some acts →
  ∃ ws',
    update_weights eta total st =
      (Ok (), mk_state (with_weights ws' (self st)) (stdout st)) ∧
    length ws' = length sh - 1 ∧
    (∀ l, 1 ≤ l < length sh →
       ∃ w d a w', ws !! (l - 1) = Some w ∧ ds !! (l - 1) = Some d ∧
                   acts !! (l - 1) = Some a ∧ ws' !! (l - 1) = Some w' ∧
                   weight_updated (sdiv eta total) w d a w') ∧
    weights_match sh ws' ∧
    biases (self (update_weights eta total st).2) = Some bs ∧
    biases (self (update_biases eta total st).2) = Some bs.
Proof.
  intros [Hlen Hpos] Hws Hbs Hds Hacts Ht Ew Eb Ed Ea.
  destruct sh as [|n0 sh]; [simpl in Hlen; lia|]. simpl in Hds, Hlen.
  destruct (weight_comprehension_ok eta total k sh n0 ws ds acts)
    as (ws' & Ec & Hm & Hall & Hzl); try done.
  assert (Erun : update_weights eta total st =
                   (Ok (), mk_state (with_weights ws' (self st)) (stdout st))).
  { unfold update_weights.
    rewrite run_bind, (run_attr _ _ _ ws) by done.
    rewrite run_bind, (run_attr _ _ _ ds) by done.
    rewrite run_bind, (run_attr _ _ _ acts) by done.
    rewrite run_bind. unfold lift. rewrite Ec. done. }
  pose proof (Forall2_length _ _ _ Hws) as Lws. rewrite length_zip_with in Lws.
  pose proof (Forall2_length _ _ _ Hds) as Lds.
  pose proof (Forall2_length _ _ _ Hacts) as Lacts.
  pose proof (Forall2_length _ _ _ Hall) as Lall.
  cbn [tail length] in Lws, Lacts.
  exists ws'. split; [done|].
  split; [simpl; lia|].
  split.
  { intros l [Hl1 Hl2]. simpl in Hl2.
    destruct (lookup_lt_is_Some_2 ws (l - 1)) as [w Hw]; [lia|].
    destruct (lookup_lt_is_Some_2 ds (l - 1)) as [d Hd]; [lia|].
    destruct (lookup_lt_is_Some_2 acts (l - 1)) as [a Ha]; [lia|].
    destruct (lookup_lt_is_Some_2 ws' (l - 1)) as [w' Hw']; [lia|].
    exists w, d, a, w'. repeat (split; [done|]).
    assert (Hz : zip ws (zip ds acts) !! (l - 1) = Some (w, (d, a))).
    { apply lookup_zip_Some. split; [done|]. by apply lookup_zip_Some. }
    exact (Forall2_lookup_lr _ _ _ _ _ _ Hall Hz Hw'). }
  split; [done|].
  split; [by rewrite Erun|].
  assert (Hz : zip bs ds ≠ []).
  { pose proof (Forall2_length _ _ _ Hbs) as Lbs. simpl in Lbs.
    destruct bs as [|b bs']; [simpl in *; lia|].
    destruct ds as [|d ds']; [simpl in *; lia|]. done. }
  destruct (update_biases_raises eta total st bs ds Eb Ed Hz) as (e & ->). done.
Qed.
End update_claims.

(** C4, on the network of shape [2, 1] with eta = 1 and a batch of two. *)
Lemma update_weights_layers_witness :
  ∃ ws',
    NeuralNetwork.update_weights 1%Q 2%Q (NeuralNetwork.mk_state Example.trained []) =
      (Ok (), NeuralNetwork.mk_state (NeuralNetwork.with_weights ws' Example.trained) []) ∧
    length ws' = 1 ∧
    (∀ l, 1 ≤ l < 2 →
       ∃ w d a w', [Example.W1] !! (l - 1) = Some w ∧ [Example.delta1] !! (l - 1) = Some d ∧
                   [Example.batch; Example.activation1] !! (l - 1) = Some a ∧
                   ws' !! (l - 1) = Some w' ∧
                   NeuralNetwork.weight_updated (1 / 2)%Q w d a w') ∧
    weights_match [2; 1] ws' ∧
    NeuralNetwork.biases (NeuralNetwork.self
      (NeuralNetwork.update_weights 1%Q 2%Q (NeuralNetwork.mk_state Example.trained [])).2)
      = Some [Example.b1] ∧
    NeuralNetwork.biases (NeuralNetwork.self
      (NeuralNetwork.update_biases 1%Q 2%Q (NeuralNetwork.mk_state Example.trained [])).2)
      = Some [Example.b1].
Proof.
  destruct (update_weights_layers [2; 1] 2 [Example.W1] [Example.b1] [Example.delta1]
              [Example.batch; Example.activation1] 1%Q 2%Q
              (NeuralNetwork.mk_state Example.trained []))
    as (ws' & E & L & Hl & Hm & Hb1 & Hb2).
  - split; [simpl; lia|]. repeat constructor.
  - repeat constructor.
  - repeat constructor.
  - repeat constructor.
  - repeat constructor.
  - reflexivity.
  - reflexivity.
  - reflexivity.
  - reflexivity.
  - reflexivity.
  - exists ws'. split; [exact E|]. split; [exact L|]. split; [exact Hl|].
    split; [exact Hm|]. split; [exact Hb1|exact Hb2].
Defined.

(** C1 fails on the code: on the network of shape [2, 1] the bias
    cell raises [AttributeError] for the name [resape] and assigns
    nothing, where the claim has bias[1] replaced; calling [reshape],
    the name the notebook's own text gives, the same cell returns with
    bias[1] = 1 - (1/2) * (2 + 4). *)
Theorem update_biases_resape :
  NeuralNetwork.update_biases 1%Q 2%Q (NeuralNetwork.mk_state Example.trained []) =
    (Err (AttributeError "resape"), NeuralNetwork.mk_state Example.trained []) ∧
  NeuralNetwork.update_biases_calling "reshape" 1%Q 2%Q
      (NeuralNetwork.mk_state Example.trained []) =
    (Ok (), NeuralNetwork.mk_state
              (NeuralNetwork.with_biases [np.mk [1; 1] [1 - (1 / 2) * (0 + 2 + 4)]%Q]
                 Example.trained) []).
Proof. split; reflexivity. Qed.

Section lifecycle_claims.
Import NeuralNetwork.
Context {A : Type} `{Scalar A} `{Host A} `{Allocators A}.

(** C2, as amended: a load that fails before its first assignment (the
    file cannot be read or parsed, or the document has no usable
    "shape" entry) leaves the object as it was; a load that fails on
    the weights has already stored the new shape, and a load that
    fails on the biases has already stored the new shape and the new
    weights; the biases of a failed load are always what they were.
    Dimensions are never a reason to fail. *)
Theorem load_failure_state (path : string) (st st' : state A) (e : exception) :
  load path st = (Err e, st') →
  biases (self st') = biases (self st) ∧
  ((self st' = self st ∧
    (json_load path = Err e ∨
     ∃ doc, json_load path = Ok doc ∧ getitem doc "shape" = Err e)) ∨
   (∃ doc s, json_load path = Ok doc ∧ getitem doc "shape" = Ok s ∧
             arrays_of doc "weights" = Err e ∧
             self st' = with_shape s (self st)) ∨
   (∃ doc s ws, json_load path = Ok doc ∧ getitem doc "shape" = Ok s ∧
                arrays_of doc "weights" = Ok ws ∧
                arrays_of doc "biases" = Err e ∧
                self st' = with_weights ws (with_shape s (self st)))).
Proof.
  rewrite load_run.
  destruct (json_load path) as [doc|e0] eqn:Ej.
  2:{ intros [= <- <-]. split; [done|]. left. split; [done|]. by left. }
  destruct (getitem doc "shape") as [s|e0] eqn:Es.
  2:{ intros [= <- <-]. split; [done|]. left. split; [done|]. right. by exists doc. }
  destruct (arrays_of doc "weights") as [ws|e0] eqn:Ews.
  2:{ intros [= <- <-]. split; [done|]. right. left. by exists doc, s. }
  destruct (arrays_of doc "biases") as [bs|e0] eqn:Ebs; [done|].
  intros [= <- <-]. split; [done|]. right. right. by exists doc, s, ws.
Qed.

(** C6, as amended: [load] compares nothing with the declared shape.
    It returns exactly when the file parses, the document has the
    entries "shape", "weights" and "biases", and every weight and bias
    converts to an array; it then stores the shape and the arrays as
    they are, whatever their count and dimensions. *)
Theorem load_checks_no_dimensions (path : string) (st : state A) :
  (∀ doc s ws bs,
     json_load path = Ok doc → getitem doc "shape" = Ok s →
     arrays_of doc "weights" = Ok ws → arrays_of doc "biases" = Ok bs →
     load path st =
       (Ok (), mk_state (with_biases bs (with_weights ws (with_shape s (self st))))
                        (stdout st))) ∧
  (returned (load path st).1 →
   ∃ doc s ws bs,
     json_load path = Ok doc ∧ getitem doc "shape" = Ok s ∧
     arrays_of doc "weights" = Ok ws ∧ arrays_of doc "biases" = Ok bs).
Proof.
  split.
  - intros doc s ws bs Ej Es Ews Ebs. by rewrite load_run, Ej, Es, Ews, Ebs.
  - rewrite load_run.
    destruct (json_load path) as [doc|e0] eqn:Ej; [|done].
    destruct (getitem doc "shape") as [s|e0] eqn:Es; [|done].
    destruct (arrays_of doc "weights") as [ws|e0] eqn:Ews; [|done].
    destruct (arrays_of doc "biases") as [bs|e0] eqn:Ebs; [|done].
    intros _. by exists doc, s, ws, bs.
Qed.

(** C8: constructing from a list of fewer than two layers raises (the
    code's [ValueError], after printing the wrong-shape message) and
    leaves the object as it was: no attribute is assigned and no
    allocating helper has run. *)
Theorem init_rejects_short_shape (l : list (pyval A)) (activation : A → A)
    (dropout : pyval A) (st : state A) :
  length l < 2 →
  init (PyList l) activation dropout st =
    (Err ValueError, mk_state (self st) (stdout st ++ [WRONGSHAPE_MESSAGE])).
Proof.
  intros Hl. unfold init. apply Nat.ltb_lt in Hl. rewrite Hl. done.
Qed.

(** C10: the training data and labels, supplied one example per row,
    are stored transposed; so are the test data and labels when both
    are given. A (k, n0) input is stored as the (n0, k) batch whose
    entry (j, i) is the input's entry (i, j). *)
Theorem data_stored_transposed (train_data train_labels test_data test_labels : pyval A)
    (a b c d : np.ndarray A) (st : state A) :
  np_array train_data = Ok a → np_array train_labels = Ok b →
  is_not_None test_data = true → is_not_None test_labels = true →
  np_array test_data = Ok c → np_array test_labels = Ok d →
  (let st' := (store_training_data train_data train_labels st).2 in
   data (self st') = Some (np.T a) ∧ target (self st') = Some (np.T b)) ∧
  (let st' := (store_test_data test_data test_labels st).2 in
   NeuralNetwork.test_data (self st') = Some (np.T c) ∧
   NeuralNetwork.test_labels (self st') = Some (np.T d)) ∧
  ∀ m k n0, m ∈ [a; b; c; d] → np.shape m = [k; n0] →
    np.shape (np.T m) = [n0; k] ∧
    ∀ i j, i < k → j < n0 → np.item (np.T m) [j; i] = np.item m [i; j].
Proof.
  intros Ea Eb Nc Nd Ec Ed.
  split; [by rewrite (store_training_data_run _ _ _ a b)|].
  split; [by rewrite (store_test_data_run _ _ _ c d)|].
  intros m k n0 _ Hm. split; [by rewrite shape_T, Hm|].
  intros i j Hi Hj. by apply (item_T_matrix m k n0).
Qed.
End lifecycle_claims.

(** C2 as stated fails: loading a document without weights into the
    trained network raises [KeyError] and the network's shape has
    already been replaced. *)
Lemma load_commits_shape_before_failing :
  ∃ st', NeuralNetwork.load "partial.json" (NeuralNetwork.mk_state Example.trained []) =
           (Err (KeyError "weights"), st') ∧
         NeuralNetwork.shape (NeuralNetwork.self st') ≠ NeuralNetwork.shape Example.trained.
Proof.
  eexists. split; [reflexivity|]. simpl. intros [=].
Qed.

(** C2 as amended, on the same load: the biases are the old ones and
    the object is the old one under the new shape. *)
Lemma load_failure_state_witness :
  let st := NeuralNetwork.mk_state Example.trained [] in
  let st' := (NeuralNetwork.load "partial.json" st).2 in
  (NeuralNetwork.load "partial.json" st).1 = Err (KeyError "weights") ∧
  NeuralNetwork.biases (NeuralNetwork.self st') = Some [Example.b1] ∧
  NeuralNetwork.self st' =
    NeuralNetwork.with_shape (PyList [PyInt 3; PyInt 1]) Example.trained.
Proof.
  intros st st'.
  assert (E : NeuralNetwork.load "partial.json" st = (Err (KeyError "weights"), st'))
    by reflexivity.
  split; [reflexivity|].
  destruct (load_failure_state "partial.json" st st' (KeyError "weights") E) as [Hb Hcases].
  split; [exact Hb|].
  destruct Hcases as [[_ [Hj|(doc & Hj & Hs)]]|[(doc & s & Hj & Hs & _ & Hst)|
                      (doc & s & ws & Hj & _ & Hw & _)]].
  - discriminate Hj.
  - injection Hj as <-. discriminate Hs.
  - injection Hj as <-. injection Hs as <-. exact Hst.
  - injection Hj as <-. discriminate Hw.
Defined.

(** C6 as stated fails: a document that declares the shape [2, 1] and
    carries a 1 x 3 weight matrix loads without error. *)
Lemma load_accepts_mismatched_weight :
  ∃ w b st',
    NeuralNetwork.load "mismatched.json" (NeuralNetwork.mk_state NeuralNetwork.fresh []) =
      (Ok (), st') ∧
    NeuralNetwork.shape (NeuralNetwork.self st') = Some (PyList [PyInt 2; PyInt 1]) ∧
    NeuralNetwork.weights (NeuralNetwork.self st') = Some [w] ∧
    NeuralNetwork.biases (NeuralNetwork.self st') = Some [b] ∧
    np.shape w = [1; 3] ∧ ¬ weights_match [2; 1] [w].
Proof.
  eexists _, _, _. split; [vm_compute; reflexivity|].
  split; [reflexivity|]. split; [reflexivity|]. split; [reflexivity|].
  split; [reflexivity|].
  intros Hm. apply Forall2_cons_1 in Hm as [Hs _]. discriminate Hs.
Qed.

(** C6 as amended, on a document that declares the shape [2, 1] and
    carries no weight and no bias. *)
Lemma load_checks_no_dimensions_witness :
  NeuralNetwork.load "empty.json" (NeuralNetwork.mk_state NeuralNetwork.fresh []) =
    (Ok (), NeuralNetwork.mk_state
              (NeuralNetwork.with_biases []
                 (NeuralNetwork.with_weights []
                    (NeuralNetwork.with_shape (PyList [PyInt 2; PyInt 1])
                       NeuralNetwork.fresh))) []).
Proof.
  apply (proj1 (load_checks_no_dimensions "empty.json"
                  (NeuralNetwork.mk_state NeuralNetwork.fresh []))
           Example.empty_document (PyList [PyInt 2; PyInt 1]) [] []);
    vm_compute; reflexivity.
Defined.

(** C8, on the list [5]. *)
Lemma init_rejects_short_shape_witness :
  NeuralNetwork.init (PyList [PyInt 5]) (λ x : Q, x) PyNone
      (NeuralNetwork.mk_state NeuralNetwork.fresh []) =
    (Err ValueError, NeuralNetwork.mk_state NeuralNetwork.fresh [WRONGSHAPE_MESSAGE]).
Proof.
  apply (init_rejects_short_shape [PyInt 5] (λ x : Q, x) PyNone
           (NeuralNetwork.mk_state NeuralNetwork.fresh [])).
  simpl. lia.
Defined.

(** C10, on two examples of three features: the stored batch is 3 x 2. *)
Lemma data_stored_transposed_witness :
  ∃ a,
    NeuralNetwork.data (NeuralNetwork.self
      (NeuralNetwork.store_training_data Example.train_data Example.train_labels
         (NeuralNetwork.mk_state NeuralNetwork.fresh [])).2) = Some (np.T a) ∧
    np.shape a = [2; 3] ∧ np.shape (np.T a) = [3; 2] ∧
    np.item (np.T a) [2; 1] = np.item a [1; 2].
Proof.
  exists (np.mk [2; 3] [1; 2; 3; 4; 5; 6]%Q).
  destruct (data_stored_transposed Example.train_data Example.train_labels
              Example.train_data Example.train_labels
              (np.mk [2; 3] [1; 2; 3; 4; 5; 6]%Q) (np.mk [2; 1] [0; 1]%Q)
              (np.mk [2; 3] [1; 2; 3; 4; 5; 6]%Q) (np.mk [2; 1] [0; 1]%Q)
              (NeuralNetwork.mk_state NeuralNetwork.fresh []))
    as ([Hd _] & _ & Ht); try reflexivity.
  split; [exact Hd|]. split; [reflexivity|].
  destruct (Ht (np.mk [2; 3] [1; 2; 3; 4; 5; 6]%Q) 2 3 ltac:(constructor) eq_refl)
    as [Hs Hi].
  split; [exact Hs|]. apply Hi; lia.
Defined.

Section backward_claims.
Import BackpropEngine.
Context {A : Type} `{Scalar A}.
Variable activationDerivative : A → A.

(** C3 (on [backward] as the specification describes it, without
    dropout masks): delta[L-1] is (activations[L-1] - target) ⊙
    activationDerivative(outputs[L-1]); for every l from L-2 down to 1,
    delta[l] is (weight[l+1]ᵀ · delta[l+1]) ⊙
    activationDerivative(outputs[l]), the derivative being taken at the
    outputs (pre-activations); and every delta[l] has the dimensions
    (shape[l], k) of activations[l]. *)
Theorem backward_deltas (sh : list nat) (k : nat) (ws outs acts : list (np.ndarray A))
    (masks : list (option (np.ndarray A))) (target : np.ndarray A) :
  valid_shape sh →
  weights_match sh ws → columns_match k (tail sh) outs → columns_match k sh acts →
  Forall (λ m, m = None) masks →
  np.shape target = [List.last sh 0; k] →
  ∃ ds,
    backward activationDerivative ws outs acts masks target = Ok ds ∧
    length ds = length sh - 1 ∧
    (∃ a o e d, last acts = Some a ∧ last outs = Some o ∧ last ds = Some d ∧
                np.subtract a target = Ok e ∧
                np.multiply e (np.vectorize activationDerivative o) = Ok d) ∧
    (∀ l, 1 ≤ l → l + 1 < length sh →
       ∃ w dn o p d, ws !! l = Some w ∧ ds !! l = Some dn ∧
                     outs !! (l - 1) = Some o ∧ ds !! (l - 1) = Some d ∧
                     np.dot (np.T w) dn = Ok p ∧
                     np.multiply p (np.vectorize activationDerivative o) = Ok d) ∧
    (∀ l, 1 ≤ l < length sh →
       ∃ d a n, ds !! (l - 1) = Some d ∧ acts !! l = Some a ∧ sh !! l = Some n ∧
                np.shape d = [n; k] ∧ np.shape a = [n; k]).
Proof.
  intros [Hlen Hpos] Hws Houts Hacts Hm Ht.
  destruct sh as [|n0 sh]; [simpl in Hlen; lia|]. cbn [tail length] in *.
  unfold columns_match in Hacts.
  apply Forall2_cons_inv_r in Hacts as (a0 & acts' & Ha0 & Hacts' & ->).
  assert (Hne : sh ≠ []) by (destruct sh; simpl in Hlen; [lia|done]).
  pose proof (Forall2_length _ _ _ Hacts') as Lacts.
  pose proof (Forall2_length _ _ _ Houts) as Louts.
  (* the last activation *)
  destruct (last acts') as [aL|] eqn:ElastA.
  2:{ apply last_None in ElastA. subst acts'.
      destruct sh; [by destruct Hne|simpl in Lacts; lia]. }
  assert (HlastA : last (a0 :: acts') = Some aL).
  { destruct acts' as [|a1 acts'']; [done|]. exact ElastA. }
  assert (HaL : np.shape aL = [List.last (n0 :: sh) 0; k]).
  { pose proof (Forall2_last _ _ _ Hacts') as Hl. rewrite ElastA in Hl.
    inversion Hl as [? n Hs E1 E2|]; subst. symmetry in E2.
    rewrite Hs. f_equal. symmetry.
    destruct sh as [|n1 sh']; [done|]. by apply last_default. }
  destruct (deltas_from_ok activationDerivative k sh n0 ws outs masks aL target)
    as (ds & Eds & Hds & Hspec); try done.
  pose proof (Forall2_length _ _ _ Hds) as Lds.
  exists ds. split; [unfold backward; by rewrite HlastA|].
  split; [lia|].
  assert (Hpos' : 0 < length sh) by (destruct sh; [by destruct Hne|simpl; lia]).
  split.
  { destruct (lookup_lt_is_Some_2 outs (pred (length outs))) as [o Ho]; [lia|].
    destruct (lookup_lt_is_Some_2 ds (pred (length ds))) as [d Hd]; [lia|].
    rewrite Lds, <- Louts in Hd.
    destruct (Hspec _ o d Ho Hd) as [[_ (e & Ee & Ed)]|(wn & dn & p & _ & Hdn & _)].
    - exists aL, o, e, d. split; [exact HlastA|].
      split; [by rewrite last_lookup|].
      split; [by rewrite last_lookup, Lds, <- Louts|].
      split; [exact Ee|exact Ed].
    - apply lookup_lt_Some in Hdn. lia. }
  split.
  { intros l Hl1 Hl2.
    destruct (lookup_lt_is_Some_2 outs (l - 1)) as [o Ho]; [lia|].
    destruct (lookup_lt_is_Some_2 ds (l - 1)) as [d Hd]; [lia|].
    destruct (Hspec _ o d Ho Hd) as [[Hlast _]|(wn & dn & p & Hwn & Hdn & Ep & Ed)]; [lia|].
    replace (S (l - 1)) with l in * by lia.
    exists wn, dn, o, p, d. done. }
  intros l [Hl1 Hl2].
  destruct (lookup_lt_is_Some_2 ds (l - 1)) as [d Hd]; [lia|].
  destruct (lookup_lt_is_Some_2 acts' (l - 1)) as [a Ha]; [lia|].
  destruct (lookup_lt_is_Some_2 sh (l - 1)) as [n Hn]; [lia|].
  exists d, a, n.
  destruct l as [|l]; [lia|]. simpl in *. rewrite Nat.sub_0_r in *.
  repeat (split; [done|]). split.
  - exact (Forall2_lookup_lr _ _ _ _ _ _ Hds Hd Hn).
  - exact (Forall2_lookup_lr _ _ _ _ _ _ Hacts' Ha Hn).
Qed.
End backward_claims.

(** C3, on a network of shape [1, 1, 1] and one example. *)
Lemma backward_deltas_witness :
  ∃ ds,
    BackpropEngine.backward (λ x : Q, x) [Example.V1; Example.V2]
      [Example.out1; Example.out2] [Example.act0; Example.out1; Example.out2]
      [None; None] Example.goal = Ok ds ∧
    length ds = 2 ∧
    ∃ d1 d2 p, ds = [d1; d2] ∧ np.shape d1 = [1; 1] ∧ np.shape d2 = [1; 1] ∧
               np.dot (np.T Example.V2) d2 = Ok p ∧
               np.multiply p (np.vectorize (λ x : Q, x) Example.out1) = Ok d1.
Proof.
  destruct (backward_deltas (λ x : Q, x) [1; 1; 1] 1 [Example.V1; Example.V2]
              [Example.out1; Example.out2] [Example.act0; Example.out1; Example.out2]
              [None; None] Example.goal)
    as (ds & E & L & _ & Hh & Hs).
  - split; [simpl; lia|]. repeat constructor.
  - repeat constructor.
  - repeat constructor.
  - repeat constructor.
  - repeat constructor.
  - reflexivity.
  - exists ds. split; [exact E|]. split; [exact L|].
    destruct ds as [|d1 [|d2 [|? ?]]]; try discriminate L.
    destruct (Hh 1) as (w & dn & o & p & d & Hw & Hdn & Ho & Hd & Ep & Ed); [lia|simpl; lia|].
    injection Hw as <-. injection Hdn as <-. injection Ho as <-. injection Hd as <-.
    destruct (Hs 1) as (e1 & a1 & n1 & Hd1 & _ & Hn1 & Hsd & _); [simpl; lia|].
    injection Hd1 as <-. injection Hn1 as <-.
    destruct (Hs 2) as (e2 & a2 & n2 & Hd2 & _ & Hn2 & Hsd2 & _); [simpl; lia|].
    injection Hd2 as <-. injection Hn2 as <-.
    exists d1, d2, p. repeat split; assumption.
Defined.

Section sigmoid_claims.
Import Sigmoid.
Context `{Libm}.

(** C9, as amended: the sigmoid is the plain formula 1/(1+np.exp(-x))
    applied to every entry, with no branch on the sign of the input,
    and so it is not protected against overflow: at an entry where
    [np.exp(-x)] overflows to inf, as it does for large negative x, the
    evaluation goes through that inf and the result there is
    1/(1+inf) = 0.0. *)
Theorem sigmoid_plain_formula (x : np.ndarray float) :
  np.shape (sigmoid_array x) = np.shape x ∧
  np.data (sigmoid_array x) = map (λ v, 1 / (1 + np_exp (- v)))%float (np.data x) ∧
  ∀ i v, np.data x !! i = Some v →
         is_finite (- v)%float = true → np_exp (- v)%float = infinity →
         ¬ no_overflow x ∧ np.data (sigmoid_array x) !! i = Some 0%float.
Proof.
  split; [done|]. split; [apply sigmoid_array_data|].
  intros i v Hi Hf He. split.
  - intros [Hstep _]. by apply (exponential_overflows x i v).
  - rewrite sigmoid_array_data. change map with (@fmap list _).
    rewrite list_lookup_fmap, Hi. simpl. by rewrite sigmoid_through_infinity.
Qed.
End sigmoid_claims.

(** C9 as stated fails: at the entry -1025 the exponential overflows. *)
Lemma sigmoid_overflows :
  ¬ Sigmoid.no_overflow (H := fdlibm.libm) Example.steep.
Proof.
  intros [Hstep _]. unfold Sigmoid.step_without_overflow in Hstep.
  apply Forall2_cons_1 in Hstep as [Ho _]. vm_compute in Ho. discriminate Ho.
Qed.

(** C9 as amended, on the entries 0 and -1025: the first gives 1/2,
    the second overflows and gives 0. *)
Lemma sigmoid_plain_formula_witness :
  np.data (Sigmoid.sigmoid_array (H := fdlibm.libm) Example.mixed) !! 0 = Some 0.5%float ∧
  np.data (Sigmoid.sigmoid_array (H := fdlibm.libm) Example.mixed) !! 1 = Some 0%float ∧
  ¬ Sigmoid.no_overflow (H := fdlibm.libm) Example.mixed.
Proof.
  destruct (sigmoid_plain_formula (H := fdlibm.libm) Example.mixed) as (_ & _ & Hover).
  destruct (Hover 1 (-1025)%float) as [Hno Hzero]; [reflexivity..|].
  split; [vm_compute; reflexivity|]. split; [exact Hzero|exact Hno].
Defined.

(** * Further properties of the cells *)

(** ** Entries of broadcast operations and scaled arrays *)

Section np_entries.
Context {A : Type} `{Scalar A}.
Implicit Types (a b c : np.ndarray A).

Lemma dot_mismatch a b n m m' k :
  np.shape a = [n; m] → np.shape b = [m'; k] → m ≠ m' → np.dot a b = Err ValueError.
Proof.
  intros Ha Hb Hm. unfold np.dot. rewrite Ha, Hb. simpl.
  apply Nat.eqb_neq in Hm. by rewrite Hm.
Qed.

Lemma bindex_matrix n k i j : i < n → j < k → np.bindex [n; k] [i; j] = [i; j].
Proof.
  intros Hi Hj. unfold np.bindex. simpl.
  destruct (n =? 1) eqn:En; destruct (k =? 1) eqn:Ek;
    rewrite ?Nat.eqb_eq in *; repeat f_equal; lia.
Qed.

Lemma bindex_column n k i j : i < n → j < k → np.bindex [n; 1] [i; j] = [i; 0].
Proof.
  intros Hi Hj. unfold np.bindex. simpl.
  destruct (n =? 1) eqn:En; rewrite ?Nat.eqb_eq in *; repeat f_equal; lia.
Qed.

Lemma item_binop_same f a b c n m i j :
  np.shape a = [n; m] → np.shape b = [n; m] → np.binop f a b = Ok c →
  i < n → j < m →
  np.item c [i; j] = f (np.item a [i; j]) (np.item b [i; j]).
Proof.
  intros Ha Hb Hc Hi Hj. unfold np.binop in Hc.
  rewrite Ha, Hb, broadcast_shape_diag in Hc. injection Hc as <-.
  rewrite item_tabulate by (repeat constructor; done).
  by rewrite bindex_matrix.
Qed.

Lemma item_binop_column f a b c n k i j :
  np.shape a = [n; k] → np.shape b = [n; 1] → np.binop f a b = Ok c →
  i < n → j < k →
  np.item c [i; j] = f (np.item a [i; j]) (np.item b [i; 0]).
Proof.
  intros Ha Hb Hc Hi Hj. unfold np.binop in Hc.
  rewrite Ha, Hb, broadcast_shape_column in Hc. injection Hc as <-.
  rewrite item_tabulate by (repeat constructor; done).
  by rewrite bindex_matrix, (bindex_column n k).
Qed.

Lemma item_scale x p idx :
  np.wf p → np.inbounds (np.shape p) idx →
  np.item (np.scale x p) idx = smul x (np.item p idx).
Proof.
  intros Hwf Hb. unfold np.item, np.scale. simpl.
  pose proof (offset_lt _ _ Hb) as Ho. rewrite <- Hwf in Ho.
  rewrite (nth_indep _ _ (smul x szero)) by (by rewrite length_map).
  by rewrite map_nth.
Qed.
End np_entries.

(** ** The feed-forward loop, value by value *)

Section forward_extras.
Import NeuralNetwork.
Context {A : Type} `{Scalar A}.
Implicit Types (st : state A) (x w b : np.ndarray A).

Lemma feed_forward_step_inv w b x st r st1 :
  feed_forward_step w b x st = (Ok r, st1) →
  ∃ o f, affine w b x = Ok o ∧ activation (self st) = Some f ∧
         r = np.vectorize f o ∧
         st1 = mk_state (extended [o] [r] (self st)) (stdout st).
Proof.
  destruct st as [n out]. unfold feed_forward_step.
  rewrite run_bind. unfold lift at 1.
  destruct (affine w b x) as [o|e]; simpl; [|done].
  rewrite run_bind. unfold append_outputs. rewrite run_bind.
  destruct n as [s ws bs f os ac ? ? ? ? ? ?]; unfold attr; simpl.
  destruct os as [os|]; simpl; [|done].
  rewrite run_bind. simpl.
  destruct f as [f|]; simpl; [|done].
  rewrite run_bind. unfold append_activations. rewrite run_bind. simpl.
  destruct ac as [ac|]; simpl; [|done].
  intros [= <- <-]. by exists o, f.
Qed.

Lemma feed_forward_loop_inv wbs : ∀ x st r st',
  feed_forward_loop wbs x st = (Ok r, st') →
  ∃ outs acts,
    st' = mk_state (extended outs acts (self st)) (stdout st) ∧
    length outs = length wbs ∧ length acts = length wbs ∧
    last (x :: acts) = Some r ∧
    ∀ i w b p, wbs !! i = Some (w, b) → (x :: acts) !! i = Some p →
      ∃ o f, activation (self st) = Some f ∧ affine w b p = Ok o ∧
             outs !! i = Some o ∧ acts !! i = Some (np.vectorize f o).
Proof.
  induction wbs as [|[w b] wbs IH]; intros x st r st' E.
  - simpl in E. injection E as <- <-. exists [], []. rewrite extended_nil.
    split; [by destruct st|]. repeat (split; [done|]). intros i w b p Hi. done.
  - simpl in E. rewrite run_bind in E.
    destruct (feed_forward_step w b x st) as [[r1|e] st1] eqn:Es; [|done].
    apply feed_forward_step_inv in Es as (o & f & Eo & Ef & -> & ->).
    apply IH in E as (outs & acts & -> & Lo & La & Hlast & Hall).
    exists (o :: outs), (np.vectorize f o :: acts).
    split; [simpl; by rewrite extended_extended|].
    split; [simpl; by rewrite Lo|]. split; [simpl; by rewrite La|].
    split; [exact Hlast|].
    intros [|i] w' b' p; simpl.
    + intros [= <- <-] [= <-]. by exists o, f.
    + intros Hw Hp. destruct (Hall i w' b' p Hw Hp) as (o' & f' & Ef' & Eo' & Ho' & Ha').
      exists o', f'. simpl in Ef'. done.
Qed.

(** X1: whenever the feed-forward loop returns, the entries it appended
    are the network's equations: for every layer i the appended output
    is [np.dot(w_i, p) + b_i] for the previous activation p (the input
    batch for the first layer), the appended activation is the
    activation function applied to that output, and the returned value
    is the last activation. *)
Theorem forward_computes_layers (x r : np.ndarray A) (st st' : state A) :
  feed_forward x st = (Ok r, st') →
  ∃ ws bs f outs acts,
    weights (self st) = Some ws ∧ biases (self st) = Some bs ∧
    st' = mk_state (extended outs acts (self st)) (stdout st) ∧
    last (x :: acts) = Some r ∧
    (zip ws bs ≠ [] → activation (self st) = Some f) ∧
    ∀ i w b p, ws !! i = Some w → bs !! i = Some b → (x :: acts) !! i = Some p →
      ∃ o, affine w b p = Ok o ∧ outs !! i = Some o ∧
           acts !! i = Some (np.vectorize f o).
Proof.
  unfold feed_forward. rewrite run_bind.
  destruct (weights (self st)) as [ws|] eqn:Ew; [|by rewrite run_attr_unset].
  rewrite (run_attr _ _ _ ws) by done. rewrite run_bind.
  destruct (biases (self st)) as [bs|] eqn:Eb; [|by rewrite run_attr_unset].
  rewrite (run_attr _ _ _ bs) by done. intros E.
  apply feed_forward_loop_inv in E as (outs & acts & -> & Lo & La & Hlast & Hall).
  destruct (activation (self st)) as [f|] eqn:Ef.
  - exists ws, bs, f, outs, acts. repeat (split; [done|]).
    intros i w b p Hw Hb Hp.
    destruct (Hall i w b p) as (o & f' & [= <-] & Eo & Ho & Ha); [by apply lookup_zip_Some|done|].
    by exists o.
  - exists ws, bs, (λ v, v), outs, acts. repeat (split; [done|]).
    split.
    { intros Hz. destruct (zip ws bs) as [|[w b] l] eqn:Ez; [done|].
      destruct (Hall 0 w b x) as (o & f' & Ef' & _); done. }
    intros i w b p Hw Hb Hp.
    destruct (Hall i w b p) as (o & f' & Ef' & _); [by apply lookup_zip_Some|done|done].
Qed.

(** X2: entry (i, j) of [np.dot(w, result) + b] is row i of the weight
    against column j of the batch, plus entry i of the bias column: the
    (n, 1) bias is added to every one of the k columns. *)
Theorem affine_entry (w b x o : np.ndarray A) (n m k i j : nat) :
  np.shape w = [n; m] → np.shape b = [n; 1] → np.shape x = [m; k] →
  affine w b x = Ok o → i < n → j < k →
  np.item o [i; j] =
    sadd (np.sum_list (map (λ l, smul (np.item w [i; l]) (np.item x [l; j])) (seq 0 m)))
         (np.item b [i; 0]).
Proof.
  intros Hw Hb Hx Ho Hi Hj. unfold affine in Ho.
  destruct (dot_matrices w x n m k Hw Hx) as (p & Ep & Hp & _).
  rewrite Ep in Ho. simpl in Ho.
  rewrite (item_binop_column sadd p b o n k i j Hp Hb Ho Hi Hj).
  by rewrite (item_dot_matrices w x p n m k i j).
Qed.

(** X3: a batch whose row count is not the column count of the first
    weight makes the loop raise [ValueError] at once; nothing is
    appended and the object is as it was. *)
Theorem forward_wrong_feature_count (w b x : np.ndarray A) (ws bs : list (np.ndarray A))
    (n m m' k : nat) (st : state A) :
  weights (self st) = Some (w :: ws) → biases (self st) = Some (b :: bs) →
  np.shape w = [n; m] → np.shape x = [m'; k] → m ≠ m' →
  feed_forward x st = (Err ValueError, st).
Proof.
  intros Ew Eb Hw Hx Hm. unfold feed_forward.
  rewrite run_bind, (run_attr _ _ _ (w :: ws)) by done.
  rewrite run_bind, (run_attr _ _ _ (b :: bs)) by done.
  change (zip (w :: ws) (b :: bs)) with ((w, b) :: zip ws bs).
  simpl. rewrite run_bind. unfold feed_forward_step. rewrite run_bind.
  unfold lift at 1. unfold affine. by rewrite (dot_mismatch w x n m m' k).
Qed.
End forward_extras.

(** ** The update cells *)

Section update_extras.
Import NeuralNetwork.
Context {A : Type} `{Scalar A}.
Implicit Types (st : state A) (w d a : np.ndarray A).

Lemma comprehension_length {X Y} (f : X → result Y) l ys :
  comprehension f l = Ok ys → length ys = length l.
Proof. intros E. apply comprehension_Forall2 in E. symmetry. by eapply Forall2_length. Qed.

(** X4: the weight cell is all or nothing: whenever it raises, for
    whatever reason, no weight has been replaced, the object and the
    printed output are exactly what they were. *)
Theorem update_weights_atomic (eta total : A) (st st' : state A) (e : exception) :
  update_weights eta total st = (Err e, st') → st' = st.
Proof.
  unfold update_weights. rewrite run_bind.
  destruct (weights (self st)) as [ws|] eqn:Ew;
    [rewrite (run_attr _ _ _ ws) by done|rewrite run_attr_unset by done; by intros [= _ <-]].
  rewrite run_bind.
  destruct (deltas (self st)) as [ds|] eqn:Ed;
    [rewrite (run_attr _ _ _ ds) by done|rewrite run_attr_unset by done; by intros [= _ <-]].
  rewrite run_bind.
  destruct (activations (self st)) as [acts|] eqn:Ea;
    [rewrite (run_attr _ _ _ acts) by done|rewrite run_attr_unset by done; by intros [= _ <-]].
  rewrite run_bind. unfold lift.
  destruct (comprehension _ _) as [new|e0]; [done|]. by intros [= _ <-].
Qed.

(** X5: when the weight cell returns it has changed the [weights]
    attribute only, and the new list is as long as the shortest of the
    weights, the deltas and the activations: [zip] silently drops the
    weights that have no delta or no activation to go with. *)
Theorem update_weights_truncates (eta total : A) (st st' : state A) :
  update_weights eta total st = (Ok (), st') →
  ∃ ws ds acts ws',
    weights (self st) = Some ws ∧ deltas (self st) = Some ds ∧
    activations (self st) = Some acts ∧
    st' = mk_state (with_weights ws' (self st)) (stdout st) ∧
    length ws' = length ws `min` (length ds `min` length acts).
Proof.
  unfold update_weights. rewrite run_bind.
  destruct (weights (self st)) as [ws|] eqn:Ew;
    [rewrite (run_attr _ _ _ ws) by done|by rewrite run_attr_unset].
  rewrite run_bind.
  destruct (deltas (self st)) as [ds|] eqn:Ed;
    [rewrite (run_attr _ _ _ ds) by done|by rewrite run_attr_unset].
  rewrite run_bind.
  destruct (activations (self st)) as [acts|] eqn:Ea;
    [rewrite (run_attr _ _ _ acts) by done|by rewrite run_attr_unset].
  rewrite run_bind. unfold lift.
  destruct (comprehension _ _) as [new|e0] eqn:Ec; [|done].
  intros [= <-]. exists ws, ds, acts, new. repeat (split; [done|]).
  apply comprehension_length in Ec. by rewrite Ec, !length_zip_with.
Qed.

(** X6: with a batch size of zero the weight cell raises
    [ZeroDivisionError] as soon as there is a weight to update, and
    changes nothing. *)
Theorem update_weights_zero_total (eta total : A) (st : state A)
    (w d a : np.ndarray A) (ws ds acts : list (np.ndarray A)) :
  weights (self st) = Some (w :: ws) → deltas (self st) = Some (d :: ds) →
  activations (self st) = Some (a :: acts) →
  sis_zero total = true →
  update_weights eta total st = (Err ZeroDivisionError, st).
Proof.
  intros Ew Ed Ea Ht. unfold update_weights.
  rewrite run_bind, (run_attr _ _ _ (w :: ws)) by done.
  rewrite run_bind, (run_attr _ _ _ (d :: ds)) by done.
  rewrite run_bind, (run_attr _ _ _ (a :: acts)) by done.
  rewrite run_bind. unfold lift.
  change (zip (w :: ws) (zip (d :: ds) (a :: acts)))
    with ((w, (d, a)) :: zip ws (zip ds acts)).
  rewrite (comprehension_head_err _ _ _ ZeroDivisionError); [done|].
  unfold weight_element, truediv. by rewrite Ht.
Qed.

(** X7: entry (i, j) of an updated weight is the old entry minus
    (eta/total) times the sum, over the k examples of the batch, of
    delta[i][x] * activation[j][x]: the matrix product with the
    transposed activation does the summation over the examples. *)
Theorem weight_entry (eta total : A) (w d a w' : np.ndarray A) (n m k i j : nat) :
  sis_zero total = false →
  np.shape w = [n; m] → np.shape d = [n; k] → np.shape a = [m; k] →
  weight_element eta total (w, (d, a)) = Ok w' → i < n → j < m →
  np.item w' [i; j] =
    ssub (np.item w [i; j])
         (smul (sdiv eta total)
               (np.sum_list (map (λ x, smul (np.item d [i; x]) (np.item a [j; x]))
                                 (seq 0 k)))).
Proof.
  intros Ht Hw Hd Ha Hw' Hi Hj. unfold weight_element in Hw'.
  rewrite truediv_ok in Hw' by done. simpl in Hw'.
  destruct (dot_matrices d (np.T a) n k m) as (p & Ep & Hp & Hwf);
    [done|by rewrite shape_T, Ha|].
  rewrite Ep in Hw'. simpl in Hw'.
  rewrite (item_binop_same ssub w (np.scale (sdiv eta total) p) w' n m i j); try done.
  rewrite item_scale; [|done|rewrite Hp; repeat constructor; done].
  rewrite (item_dot_matrices d (np.T a) p n k m i j); [|done|by rewrite shape_T, Ha|done..].
  do 3 f_equal. apply map_ext_in. intros x Hx. apply in_seq in Hx.
  by rewrite (item_T_matrix a m k j x) by (done || lia).
Qed.

(** X8: the bias cell, as written, can return only when there is no
    (bias, delta) pair to update, and then it replaces [self.biases]
    by the empty list; with at least one pair it raises, whatever the
    arrays are, and leaves the object as it was. *)
Theorem update_biases_outcome (learning_rate total : A) (st : state A)
    (bs ds : list (np.ndarray A)) :
  biases (self st) = Some bs → deltas (self st) = Some ds →
  (zip bs ds = [] →
   update_biases learning_rate total st =
     (Ok (), mk_state (with_biases [] (self st)) (stdout st))) ∧
  (zip bs ds ≠ [] →
   ∃ e, update_biases learning_rate total st = (Err e, st)).
Proof.
  intros Eb Ed. split; [|by apply update_biases_raises].
  intros Hz. unfold update_biases, update_biases_calling.
  rewrite run_bind, (run_attr _ _ _ bs) by done.
  rewrite run_bind, (run_attr _ _ _ ds) by done.
  rewrite run_bind. unfold lift. by rewrite Hz.
Qed.

(** X9: one forward pass followed by the weight cell keeps the store
    consistent with the shape. Starting from histories that hold the
    input batch only, the pass returns, the weight cell then returns,
    the new weights have the dimensions the shape prescribes and the
    biases are untouched, so that a further forward pass on a batch of
    any size again returns a final activation of (n(L-1), k'). *)
Theorem training_step_keeps_shapes (sh : list nat) (k k' : nat)
    (ws bs ds : list (np.ndarray A)) (f : A → A) (x x' : np.ndarray A)
    (eta total : A) (st : state A) :
  valid_shape sh →
  weights_match sh ws → biases_match sh bs → columns_match k (tail sh) ds →
  np.shape x = [List.hd 0 sh; k] → np.shape x' = [List.hd 0 sh; k'] →
  sis_zero total = false →
  weights (self st) = Some ws → biases (self st) = Some bs →
  activation (self st) = Some f → deltas (self st) = Some ds →
  outputs (self st) = Some [] → activations (self st) = Some [x] →
  ∃ r st1 ws' st2 r' st3,
    feed_forward x st = (Ok r, st1) ∧
    update_weights eta total st1 = (Ok (), st2) ∧
    weights (self st2) = Some ws' ∧ weights_match sh ws' ∧
    biases (self st2) = Some bs ∧
    feed_forward x' st2 = (Ok r', st3) ∧
    np.shape r' = [List.last sh 0; k'].
Proof.
  intros [Hlen Hpos] Hws Hbs Hds Hx Hx' Ht Ew Eb Ef Ed Eo Ea.
  destruct sh as [|n0 sh]; [simpl in Hlen; lia|]. simpl in Hx, Hx', Hds.
  destruct (feed_forward_loop_ok sh n0 k ws bs x st f [] [x])
    as (r & outs & acts & El & Hr & Hco & Hca & Hl & _); try done.
  set (st1 := mk_state (extended outs acts (self st)) (stdout st)) in *.
  assert (E1 : feed_forward x st = (Ok r, st1)).
  { unfold feed_forward. rewrite run_bind, (run_attr _ _ _ ws) by done.
    rewrite run_bind, (run_attr _ _ _ bs) by done. exact El. }
  destruct (weight_comprehension_ok eta total k sh n0 ws ds (x :: acts))
    as (ws' & Ec & Hm & _); try done.
  { by constructor. }
  set (st2 := mk_state (with_weights ws' (self st1)) (stdout st1)).
  assert (E2 : update_weights eta total st1 = (Ok (), st2)).
  { unfold update_weights.
    rewrite run_bind, (run_attr _ _ _ ws) by (subst st1; done).
    rewrite run_bind, (run_attr _ _ _ ds) by (subst st1; done).
    rewrite run_bind, (run_attr _ _ _ (x :: acts)) by (subst st1; simpl; by rewrite Ea).
    rewrite run_bind. unfold lift. by rewrite Ec. }
  destruct (feed_forward_loop_ok sh n0 k' ws' bs x' st2 f outs ([x] ++ acts))
    as (r' & outs' & acts' & El' & Hr' & _); try done.
  { subst st2 st1. simpl. by rewrite Eo. }
  { subst st2 st1. simpl. by rewrite Ea. }
  exists r, st1, ws', st2, r', (mk_state (extended outs' acts' (self st2)) (stdout st2)).
  split; [done|]. split; [done|]. split; [done|]. split; [done|].
  split; [subst st2 st1; done|]. split; [|done].
  unfold feed_forward. rewrite run_bind, (run_attr _ _ _ ws') by done.
  rewrite run_bind, (run_attr _ _ _ bs) by (subst st2 st1; done). exact El'.
Qed.
End update_extras.

(** ** Loading, constructing and storing the data *)

Section lifecycle_extras.
Import NeuralNetwork.
Context {A : Type} `{Scalar A} `{Host A} `{Allocators A}.
Implicit Types (st : state A) (doc : pyval A).

(** X10: whatever its outcome, [load] touches nothing but the shape,
    the weights and the biases: the activation, the histories, the
    deltas and the data are what they were, so a network that was only
    loaded has no activation function and no histories of its own.
    It prints at most one line, and only when it raises [KeyError]:
    the line naming the missing key. *)
Theorem load_frame (path : string) (st : state A) :
  let st' := (load path st).2 in
  activation (self st') = activation (self st) ∧
  outputs (self st') = outputs (self st) ∧
  activations (self st') = activations (self st) ∧
  deltas (self st') = deltas (self st) ∧
  data (self st') = data (self st) ∧
  target (self st') = target (self st) ∧
  test_data (self st') = test_data (self st) ∧
  test_labels (self st') = test_labels (self st) ∧
  testing_error (self st') = testing_error (self st) ∧
  (stdout st' = stdout st ∨
   ∃ key, (load path st).1 = Err (KeyError key) ∧
          stdout st' = stdout st ++ [LoadFailedMissingKey key]).
Proof.
  rewrite load_run.
  assert (Hout : ∀ e (n : t A),
    let r : result () * state A := (Err e, mk_state n (stdout st ++ reported e)) in
    stdout r.2 = stdout st ∨
    ∃ key, r.1 = Err (KeyError key) ∧ stdout r.2 = stdout st ++ [LoadFailedMissingKey key]).
  { intros e n. destruct e; simpl; rewrite ?app_nil_r; eauto. }
  destruct (json_load path) as [doc|e]; [|simpl; repeat (split; [done|]); by left].
  destruct (getitem doc "shape") as [s|e]; [|repeat (split; [done|]); apply Hout].
  destruct (arrays_of doc "weights") as [ws|e]; [|repeat (split; [done|]); apply Hout].
  destruct (arrays_of doc "biases") as [bs|e]; [|repeat (split; [done|]); apply Hout].
  simpl. repeat (split; [done|]). by left.
Qed.

(** X11: loading the same file a second time changes nothing more: the
    object after two loads in a row is the object after one, whether
    the loads succeed or fail. *)
Theorem load_twice (path : string) (st : state A) :
  self (load path (load path st).2).2 = self (load path st).2.
Proof.
  rewrite (load_run path st).
  destruct (json_load path) as [doc|e] eqn:Ej.
  2:{ simpl. rewrite load_run, Ej. done. }
  destruct (getitem doc "shape") as [s|e] eqn:Es.
  2:{ simpl. rewrite load_run, Ej, Es. done. }
  destruct (arrays_of doc "weights") as [ws|e] eqn:Ews.
  2:{ simpl. rewrite load_run, Ej, Es, Ews. done. }
  destruct (arrays_of doc "biases") as [bs|e] eqn:Ebs;
    simpl; rewrite load_run, Ej, Es, Ews, Ebs; done.
Qed.

(** X12: a file that parses to anything but an object (a list, a
    number, a string, null) makes [load] raise [TypeError], which the
    [except KeyError] clause does not catch: nothing is printed and
    nothing is assigned. *)
Theorem load_not_an_object (path : string) (doc : pyval A) (st : state A) :
  json_load path = Ok doc → (∀ m, doc ≠ PyDict m) →
  load path st = (Err TypeError, st).
Proof.
  intros Ej Hd. rewrite load_run, Ej.
  destruct doc; simpl; try (by rewrite app_nil_r; destruct st).
  by destruct (Hd m).
Qed.

(** X13: constructing from a file name is [load] on that file and
    nothing else: the same outcome and the same object (no allocating
    helper runs, the activation argument is not stored), with the
    file-not-found or the memory message printed after what [load]
    printed when that is the exception, which is raised again. *)
Theorem init_from_file (file : string) (activation : A → A) (dropout : pyval A)
    (st : state A) :
  let loaded := load file st in
  let built := init (PyStr file) activation dropout st in
  built.1 = loaded.1 ∧ self built.2 = self loaded.2 ∧
  stdout built.2 =
    stdout loaded.2 ++ match loaded.1 with
                       | Err FileNotFoundError => [FILENOTFOUNDERROR_MESSAGE]
                       | Err MemoryError => [MEMORYERROR_MESSAGE]
                       | _ => []
                       end.
Proof.
  simpl. unfold init, try_except.
  destruct (load file st) as [[[]|e] st1]; simpl; [by rewrite app_nil_r|].
  destruct e; simpl; by rewrite ?app_nil_r.
Qed.

(** X14: an exception is never swallowed silently by the constructor's
    memory handler: whenever the constructor raises [MemoryError], from
    [load] or from an allocating helper, the memory message is the last
    line it printed. *)
Theorem init_reports_memory_error (shape_or_file : pyval A) (activation : A → A)
    (dropout : pyval A) (st st' : state A) :
  init shape_or_file activation dropout st = (Err MemoryError, st') →
  ∃ out, stdout st' = out ++ [MEMORYERROR_MESSAGE].
Proof.
  unfold init. destruct shape_or_file as [| | | |file|l|]; try done.
  - unfold try_except. destruct (load file st) as [[[]|e] st1]; [done|].
    destruct e; simpl; try done. intros [= <-]. by eexists.
  - destruct (length l <? 2); [done|]. unfold try_except.
    match goal with |- context [match ?c st with _ => _ end] =>
      destruct (c st) as [[[]|e] st1] end; [done|].
    destruct e; simpl; try done. intros [= <-]. by eexists.
Qed.

(** X15: the training data are stored all or nothing: both arrays are
    converted before either is assigned, so when a conversion raises,
    neither [self.data] nor [self.target] has changed. *)
Theorem store_training_data_atomic (train_data train_labels : pyval A)
    (st st' : state A) (e : exception) :
  store_training_data train_data train_labels st = (Err e, st') → st' = st.
Proof.
  unfold store_training_data. rewrite run_bind. unfold lift at 1.
  destruct (np_array train_data) as [a|e0]; [|by intros [= _ <-]].
  rewrite run_bind. unfold lift at 1.
  destruct (np_array train_labels) as [b|e0]; [done|by intros [= _ <-]].
Qed.

(** X16: test data given without test labels, or labels without data,
    are ignored without an error: nothing is converted, nothing is
    stored and [self.testing_error] is not created. *)
Theorem store_test_data_needs_both (test_data test_labels : pyval A) (st : state A) :
  test_data = PyNone ∨ test_labels = PyNone →
  store_test_data test_data test_labels st = (Ok (), st).
Proof.
  intros [-> | ->]; unfold store_test_data; simpl; [done|].
  by rewrite andb_false_r.
Qed.

(** X17: the test data are not stored all or nothing: the test inputs
    are converted and assigned before the labels are converted, so
    when the labels cannot be converted the exception leaves
    [self.test_data] already replaced, with [self.test_labels] and
    [self.testing_error] untouched. *)
Theorem store_test_data_partial (test_data test_labels : pyval A)
    (c : np.ndarray A) (e : exception) (st : state A) :
  is_not_None test_data = true → is_not_None test_labels = true →
  np_array test_data = Ok c → np_array test_labels = Err e →
  store_test_data test_data test_labels st =
    (Err e, mk_state (with_test_data (np.T c) (self st)) (stdout st)).
Proof.
  intros Nd Nl Ec Ee. unfold store_test_data. rewrite Nd, Nl. simpl.
  rewrite run_bind. unfold lift at 1. rewrite Ec.
  rewrite run_bind. unfold assign at 1.
  rewrite run_bind. unfold lift at 1. by rewrite Ee.
Qed.
End lifecycle_extras.

(** ** The further properties on the worked examples *)

(** X1, on the network of shape [2, 1]: the appended output is the
    affine map of the batch, the appended activation its image. *)
Lemma forward_computes_layers_witness :
  ∃ (o : np.ndarray Q) (f : Q → Q) (outs acts : list (np.ndarray Q)),
    NeuralNetwork.affine Example.W1 Example.b1 Example.batch = Ok o ∧
    outs !! 0 = Some o ∧ acts !! 0 = Some (np.vectorize f o) ∧
    last (Example.batch :: acts) = Some Example.activation1.
Proof.
  assert (E : NeuralNetwork.feed_forward Example.batch
                (NeuralNetwork.mk_state Example.constructed []) =
              (Ok Example.activation1,
               NeuralNetwork.mk_state
                 (NeuralNetwork.extended [Example.activation1] [Example.activation1]
                    Example.constructed) [])) by reflexivity.
  destruct (forward_computes_layers _ _ _ _ E)
    as (ws & bs & f & outs & acts & Ew & Eb & _ & Hlast & _ & Hall).
  injection Ew as <-. injection Eb as <-.
  destruct (Hall 0 Example.W1 Example.b1 Example.batch eq_refl eq_refl eq_refl)
    as (o & Eo & Ho & Ha).
  exists o, f, outs, acts. repeat split; assumption.
Defined.

(** X2, on the same layer: entry (0, 1) is 1*2 + 2*4 + 1. *)
Lemma affine_entry_witness :
  np.item Example.activation1 [0; 1] = ((0 + 1 * 2 + 2 * 4) + 1)%Q.
Proof.
  exact (affine_entry (H := Q_scalar) Example.W1 Example.b1 Example.batch Example.activation1 1 2 2 0 1
           eq_refl eq_refl eq_refl ltac:(vm_compute; reflexivity) ltac:(lia) ltac:(lia)).
Defined.

(** X3, on a batch of three features for the network of two inputs. *)
Lemma forward_wrong_feature_count_witness :
  NeuralNetwork.feed_forward MoreExamples.wide
      (NeuralNetwork.mk_state Example.constructed []) =
    (Err ValueError, NeuralNetwork.mk_state Example.constructed []).
Proof.
  apply (forward_wrong_feature_count Example.W1 Example.b1 MoreExamples.wide [] [] 1 2 3 2);
    [reflexivity..|lia].
Defined.

(** X4, on the trained network with a batch size of zero. *)
Lemma update_weights_atomic_witness :
  (NeuralNetwork.update_weights 1%Q 0%Q (NeuralNetwork.mk_state Example.trained [])).2 =
    NeuralNetwork.mk_state Example.trained [].
Proof.
  apply (update_weights_atomic 1%Q 0%Q (NeuralNetwork.mk_state Example.trained []) _
           ZeroDivisionError).
  reflexivity.
Defined.

(** X5, on a store of two weights and one delta: one weight is left. *)
Lemma update_weights_truncates_witness :
  ∃ ws', NeuralNetwork.weights (NeuralNetwork.self
           (NeuralNetwork.update_weights 1%Q 2%Q
              (NeuralNetwork.mk_state MoreExamples.overfull [])).2) = Some ws' ∧
         length ws' = 1.
Proof.
  assert (E : NeuralNetwork.update_weights 1%Q 2%Q
                (NeuralNetwork.mk_state MoreExamples.overfull []) =
              (Ok (), (NeuralNetwork.update_weights 1%Q 2%Q
                         (NeuralNetwork.mk_state MoreExamples.overfull [])).2))
    by (vm_compute; reflexivity).
  destruct (update_weights_truncates _ _ _ _ E)
    as (ws & ds & acts & ws' & Ew & Ed & Ea & Est & Hlen).
  injection Ew as <-. injection Ed as <-. injection Ea as <-.
  exists ws'. split; [by rewrite Est|exact Hlen].
Defined.

(** X6, on the trained network. *)
Lemma update_weights_zero_total_witness :
  NeuralNetwork.update_weights 1%Q 0%Q (NeuralNetwork.mk_state Example.trained []) =
    (Err ZeroDivisionError, NeuralNetwork.mk_state Example.trained []).
Proof.
  apply (update_weights_zero_total 1%Q 0%Q (NeuralNetwork.mk_state Example.trained [])
           Example.W1 Example.delta1 Example.batch [] [] [Example.activation1]);
    reflexivity.
Defined.

(** X7, on the trained network: entry (0, 1) becomes
    2 - (1/2) * (2*3 + 4*4). *)
Lemma weight_entry_witness :
  np.item MoreExamples.W1_updated [0; 1] = (2 - (1 / 2) * (0 + 2 * 3 + 4 * 4))%Q.
Proof.
  exact (weight_entry (H := Q_scalar) 1%Q 2%Q Example.W1 Example.delta1 Example.batch
           MoreExamples.W1_updated 1 2 2 0 1
           eq_refl eq_refl eq_refl eq_refl ltac:(vm_compute; reflexivity) ltac:(lia) ltac:(lia)).
Defined.

(** X8, on a network with no delta: the cell returns and the bias is gone. *)
Lemma update_biases_outcome_witness :
  NeuralNetwork.update_biases 1%Q 2%Q (NeuralNetwork.mk_state MoreExamples.idle []) =
    (Ok (), NeuralNetwork.mk_state (NeuralNetwork.with_biases [] MoreExamples.idle) []).
Proof.
  apply (proj1 (update_biases_outcome 1%Q 2%Q (NeuralNetwork.mk_state MoreExamples.idle [])
                  [Example.b1] [] eq_refl eq_refl)).
  reflexivity.
Defined.

(** X9, on the network of shape [2, 1]: a pass over two examples, the
    weight cell, then a pass over one example. *)
Lemma training_step_keeps_shapes_witness :
  ∃ ws' r',
    weights_match [2; 1] ws' ∧ np.shape r' = [1; 1] ∧
    ∃ r st1 st2 st3,
      NeuralNetwork.feed_forward Example.batch (NeuralNetwork.mk_state MoreExamples.ready [])
        = (Ok r, st1) ∧
      NeuralNetwork.update_weights 1%Q 2%Q st1 = (Ok (), st2) ∧
      NeuralNetwork.weights (NeuralNetwork.self st2) = Some ws' ∧
      NeuralNetwork.feed_forward MoreExamples.single st2 = (Ok r', st3).
Proof.
  destruct (training_step_keeps_shapes [2; 1] 2 1 [Example.W1] [Example.b1] [Example.delta1]
              (λ x, x) Example.batch MoreExamples.single 1%Q 2%Q
              (NeuralNetwork.mk_state MoreExamples.ready []))
    as (r & st1 & ws' & st2 & r' & st3 & E1 & E2 & Ew & Hm & _ & E3 & Hr').
  - split; [simpl; lia|]. repeat constructor.
  - repeat constructor.
  - repeat constructor.
  - repeat constructor.
  - reflexivity.
  - reflexivity.
  - reflexivity.
  - reflexivity.
  - reflexivity.
  - reflexivity.
  - reflexivity.
  - reflexivity.
  - reflexivity.
  - exists ws', r'. split; [exact Hm|]. split; [exact Hr'|].
    exists r, st1, st2, st3. repeat split; assumption.
Defined.

(** X12, on a file that holds a JSON list. *)
Lemma load_not_an_object_witness :
  NeuralNetwork.load (H0 := MoreExamples.list_host) "list.json"
      (NeuralNetwork.mk_state Example.trained []) =
    (Err TypeError, NeuralNetwork.mk_state Example.trained []).
Proof.
  apply (load_not_an_object (H0 := MoreExamples.list_host) "list.json" (PyList [])
           (NeuralNetwork.mk_state Example.trained []) eq_refl).
  intros m. discriminate.
Defined.

(** X14, on allocators that run out of memory. *)
Lemma init_reports_memory_error_witness :
  ∃ out,
    NeuralNetwork.stdout
      (NeuralNetwork.init (H1 := MoreExamples.exhausted) (PyList [PyInt 2; PyInt 1])
         (λ x : Q, x) PyNone (NeuralNetwork.mk_state NeuralNetwork.fresh [])).2
    = out ++ [MEMORYERROR_MESSAGE].
Proof.
  apply (init_reports_memory_error (H1 := MoreExamples.exhausted)
           (PyList [PyInt 2; PyInt 1]) (λ x : Q, x) PyNone
           (NeuralNetwork.mk_state NeuralNetwork.fresh [])).
  reflexivity.
Defined.

(** X15, on labels that are not an array. *)
Lemma store_training_data_atomic_witness :
  (NeuralNetwork.store_training_data Example.train_data MoreExamples.ragged
     (NeuralNetwork.mk_state NeuralNetwork.fresh [])).2 =
    NeuralNetwork.mk_state NeuralNetwork.fresh [].
Proof.
  apply (store_training_data_atomic Example.train_data MoreExamples.ragged
           (NeuralNetwork.mk_state NeuralNetwork.fresh []) _ ValueError).
  reflexivity.
Defined.

(** X16, on test labels without test data. *)
Lemma store_test_data_needs_both_witness :
  NeuralNetwork.store_test_data PyNone Example.train_labels
      (NeuralNetwork.mk_state NeuralNetwork.fresh []) =
    (Ok (), NeuralNetwork.mk_state NeuralNetwork.fresh []).
Proof.
  apply (store_test_data_needs_both PyNone Example.train_labels
           (NeuralNetwork.mk_state NeuralNetwork.fresh [])).
  left. reflexivity.
Defined.

(** X17, on test data with labels that are not an array. *)
Lemma store_test_data_partial_witness :
  NeuralNetwork.store_test_data Example.train_data MoreExamples.ragged
      (NeuralNetwork.mk_state NeuralNetwork.fresh []) =
    (Err ValueError,
     NeuralNetwork.mk_state
       (NeuralNetwork.with_test_data (np.T (np.mk [2; 3] [1; 2; 3; 4; 5; 6]%Q))
          NeuralNetwork.fresh) []).
Proof.
  apply (store_test_data_partial Example.train_data MoreExamples.ragged
           (np.mk [2; 3] [1; 2; 3; 4; 5; 6]%Q) ValueError
           (NeuralNetwork.mk_state NeuralNetwork.fresh []));
    reflexivity.
Defined.

